(** * The structured log formatter of the chat front end ([qachatbot.py])

    A shallow embedding of the class [LogFormatter] (its constructor table
    [type_formats], [format_field] and [create_log_entry]) together with the
    part of the Python runtime these two methods rest on: text slicing,
    [str.ljust], [str.join], the two format specifications [d] and [.2f], and
    exceptions caught by [try ... except Exception].

    The script around the class is embedded as well: the handler of a
    submitted message, the file [chat_logs.txt] it appends to, and the
    sections "Chat History" and "Recent Logs" of the page, as statements
    over an explicit world (session, file, page). *)

From Stdlib Require Import ZArith List String Ascii Bool Lia.
From Stdlib Require Import DecimalString SpecFloat.
Import ListNotations.

#[local] Open Scope string_scope.
#[local] Open Scope Z_scope.

(** ** The Python runtime the formatter uses *)

Module Py.

(** A raised exception, of class [Exception] or below (what
    [except Exception] catches): its class and the text [str(e)] gives. *)
Record PyExc : Type := mkExc { exc_class : string; exc_str : string }.

Definition TypeError (msg : string) : PyExc := mkExc "TypeError" msg.
Definition KeyError (msg : string) : PyExc := mkExc "KeyError" msg.

(** The outcome of evaluating an expression: a value, or a raised exception. *)
Inductive PyResult (A : Type) : Type :=
| Return (a : A)
| Raise (e : PyExc).

Arguments Return {A} a.
Arguments Raise {A} e.

Definition bind {A B : Type} (r : PyResult A) (k : A -> PyResult B) : PyResult B :=
  match r with
  | Return a => k a
  | Raise e => Raise e
  end.

(** [try: body  except Exception as e: handler(e)] *)
Definition try_except {A : Type} (body : PyResult A) (handler : PyExc -> PyResult A)
  : PyResult A :=
  match body with
  | Return a => Return a
  | Raise e => handler e
  end.

(** Text is a sequence of characters; one [ascii] stands for one character. *)
Definition len (s : string) : Z := Z.of_nat (String.length s).

(** [c * n] for a one-character text [c]. *)
Fixpoint replicate (n : nat) (c : ascii) : string :=
  match n with
  | O => EmptyString
  | S n' => String c (replicate n' c)
  end.

(** [s[:stop]]: a negative [stop] counts from the end, and both ends clamp. *)
Definition slice_to (s : string) (stop : Z) : string :=
  if stop <? 0
  then substring 0 (Z.to_nat (len s + stop)) s
  else substring 0 (Z.to_nat stop) s.

(** [s.ljust(width, fillchar)]: the fill text must be one character long, and
    a text that already has the width comes back as it is. *)
Definition ljust (s : string) (width : Z) (fillchar : string) : PyResult string :=
  match fillchar with
  | String c EmptyString =>
      if len s >=? width then Return s
      else Return (s ++ replicate (Z.to_nat (width - len s)) c)
  | _ => Raise (TypeError "The fill character must be exactly one character long")
  end.

(** [sep.join(parts)] is [String.concat sep parts]. *)
Definition join (sep : string) (parts : list string) : string :=
  String.concat sep parts.

(** [c.lower()] and [s.lower()] on the letters A to Z. *)
Definition lower_char (c : ascii) : ascii :=
  let n := nat_of_ascii c in
  if ((65 <=? n)%nat && (n <=? 90)%nat)%bool then ascii_of_nat (n + 32) else c.

Fixpoint lower (s : string) : string :=
  match s with
  | EmptyString => EmptyString
  | String c s' => String (lower_char c) (lower s')
  end.

(** [str(b)] for a boolean. *)
Definition str_bool (b : bool) : string := if b then "True" else "False".

(** [f"{n:d}"]: base ten, a minus sign for negative numbers, no separators. *)
Definition format_d (n : Z) : string := NilZero.string_of_int (Z.to_int n).

(** Nearest integer to [num / den] ([0 <= num], [0 < den]), ties to even. *)
Definition round_half_even (num den : Z) : Z :=
  let q := num / den in
  let r := num mod den in
  if 2 * r <? den then q
  else if den <? 2 * r then q + 1
  else if Z.even q then q else q + 1.

Definition two_digits (n : Z) : string :=
  if n <? 10 then "0" ++ format_d n else format_d n.

(** The magnitude [m * 2^e] in hundredths, correctly rounded. *)
Definition hundredths (m : positive) (e : Z) : Z :=
  if 0 <=? e then Z.pos m * 2 ^ e * 100
  else round_half_even (Z.pos m * 100) (2 ^ (- e)).

(** [f"{x:.2f}"] for a binary floating-point number [x]: fixed point with two
    digits after the point, the exact binary value rounded to nearest-even. *)
Definition format_2f (x : spec_float) : string :=
  match x with
  | S754_nan => "nan"
  | S754_infinity s => if s then "-inf" else "inf"
  | S754_zero s => (if s then "-" else "") ++ "0.00"
  | S754_finite s m e =>
      let h := hundredths m e in
      (if s then "-" else "") ++ format_d (h / 100) ++ "." ++ two_digits (h mod 100)
  end.

(** A dict as the sequence of its items, in insertion order. *)
Definition dict (V : Type) : Type := list (string * V).

(** [d.get(key, default)] *)
Fixpoint dict_get {V : Type} (d : dict V) (key : string) (default : V) : V :=
  match d with
  | [] => default
  | (k, v) :: d' => if String.eqb k key then v else dict_get d' key default
  end.

(** [d[key]] *)
Fixpoint dict_getitem {V : Type} (d : dict V) (key : string) : PyResult V :=
  match d with
  | [] => Raise (KeyError key)
  | (k, v) :: d' => if String.eqb k key then Return v else dict_getitem d' key
  end.

End Py.

Import Py.

Notation "x <- e1 ;; e2" := (bind e1 (fun x => e2))
  (at level 61, e1 at next level, right associativity).

(** ** Values handed to the formatter *)

(** A value, by the class [type(value)] reports.  [VObject] is an instance of
    any other class (None, a tuple, a subclass of the above, ...): the
    formatter only ever calls [str] on it, so it is given by what its
    [__str__] does, return a text or raise. *)
#[warnings="-register-all"] Inductive PyValue : Type :=
| VStr (s : string)
| VInt (n : Z)
| VFloat (x : spec_float)
| VBool (b : bool)
| VDict (items : list (PyValue * PyValue))
| VList (items : list PyValue)
| VObject (str_method : PyResult string).

(** ** class LogFormatter *)

Record LogFormatter : Type := mkLogFormatter {
  max_field_length : Z;
  padding_char : string
}.

(** [LogFormatter(max_field_length=100, padding_char=" ")]: an omitted
    argument takes its default. *)
Definition LogFormatter_init (max_field_length : option Z) (padding_char : option string)
  : LogFormatter :=
  mkLogFormatter
    (match max_field_length with Some n => n | None => 100 end)
    (match padding_char with Some c => c | None => " " end).

(** The module-level [logger]. *)
Definition logger : LogFormatter := LogFormatter_init (Some 100) (Some " ").

(** What [create_log_entry] reads from its environment: the text of
    [datetime.now().strftime("%Y-%m-%d %H:%M:%S")] and of [str(uuid.uuid4())]. *)
Record Env : Type := mkEnv {
  now_strftime : string;
  uuid4_str : string
}.

(** The local table [field_widths] of [create_log_entry]. *)
Definition field_widths : dict Z :=
  [ ("timestamp", 20); ("log_id", 10); ("user_input", 50);
    ("response", 80); ("model", 15); ("duration_ms", 10) ].

Section Formatter.

(** [json.dumps(x, ensure_ascii=False)] of the standard library: a text, or an
    exception (a key or an object it cannot encode, a circular reference). *)
Variable json_dumps : PyValue -> PyResult string.

(** [self.type_formats.get(type(value), str)(value)]: the entry of the table
    for the exact class of the value, and [str] for a class with no entry. *)
Definition type_formats (value : PyValue) : PyResult string :=
  match value with
  | VStr s => Return s
  | VInt n => Return (format_d n)
  | VFloat x => Return (format_2f x)
  | VBool b => Return (lower (str_bool b))
  | VDict _ => json_dumps value
  | VList _ => json_dumps value
  | VObject str_method => str_method
  end.

(** [width or self.max_field_length]: [None] and [0] are both false. *)
Definition width_or (width : option Z) (default : Z) : Z :=
  match width with
  | None => default
  | Some w => if w =? 0 then default else w
  end.

Definition format_field (self : LogFormatter) (value : PyValue) (field_name : string)
    (width : option Z) : PyResult string :=
  let width := width_or width (max_field_length self) in
  try_except
    (formatted <- type_formats value ;;
     let formatted :=
       if len formatted >? width
       then slice_to formatted (width - 3) ++ "..."
       else formatted in
     ljust formatted width (padding_char self))
    (fun e =>
       ljust ("Error formatting " ++ field_name ++ ": " ++ exc_str e)
             width (padding_char self)).

(** The loop [for key, value in log_data.items(): formatted_fields.append(...)]. *)
Fixpoint format_items (self : LogFormatter) (items : dict PyValue)
    (formatted_fields : list string) : PyResult (list string) :=
  match items with
  | [] => Return formatted_fields
  | (key, value) :: rest =>
      let width := dict_get field_widths key (max_field_length self) in
      field <- format_field self value key (Some width) ;;
      format_items self rest (formatted_fields ++ [field])%list
  end.

Definition create_log_entry (self : LogFormatter) (env : Env) (log_data : dict PyValue)
  : PyResult string :=
  let timestamp := now_strftime env in
  let log_id := slice_to (uuid4_str env) 8 in
  w_timestamp <- dict_getitem field_widths "timestamp" ;;
  f_timestamp <- format_field self (VStr timestamp) "timestamp" (Some w_timestamp) ;;
  w_log_id <- dict_getitem field_widths "log_id" ;;
  f_log_id <- format_field self (VStr log_id) "log_id" (Some w_log_id) ;;
  formatted_fields <- format_items self log_data [f_timestamp; f_log_id] ;;
  Return (join " | " formatted_fields).

End Formatter.

(** One encoder to run the formatter with, on values that are no container
    or are a container holding a set: it answers as [json.dumps] does for a
    set, which it cannot encode. *)
Definition json_dumps_refusing (x : PyValue) : PyResult string :=
  Raise (TypeError "Object of type set is not JSON serializable").

(** The double nearest to 3.14159: 7074231776675438 * 2^-51. *)
Definition float_3_14159 : spec_float := S754_finite false 7074231776675438 (-51).

(** ** Notions the properties are stated with *)

(** [s] followed by as many [c] as it takes to reach [width] characters. *)
Definition padded (c : ascii) (width : Z) (s : string) : string :=
  s ++ replicate (Z.to_nat (width - len s)) c.

(** The text of the fallback of [format_field]. *)
Definition error_text (field_name : string) (e : PyExc) : string :=
  "Error formatting " ++ field_name ++ ": " ++ exc_str e.

(** What the truncation policy promises of the output for a text longer than
    [target_width]: the width, the first [target_width - 3] characters of the
    text, and the ellipsis as the last three characters. *)
Definition truncated_to (text : string) (target_width : Z) (out : string) : Prop :=
  len out = target_width /\
  substring 0 (Z.to_nat (target_width - 3)) out
    = substring 0 (Z.to_nat (target_width - 3)) text /\
  substring (String.length out - 3) 3 out = "...".

(** [field] is what the loop of [create_log_entry] appends for [item]. *)
Definition item_field (json_dumps : PyValue -> PyResult string) (self : LogFormatter)
    (item : string * PyValue) (field : string) : Prop :=
  format_field json_dumps self (snd item) (fst item)
    (Some (dict_get field_widths (fst item) (max_field_length self)))
  = Return field.

(** The layout of a log entry: the timestamp field, the short-id field, then
    one field per item of [log_data], item by item in the order of the items. *)
Definition entry_layout (json_dumps : PyValue -> PyResult string) (self : LogFormatter)
    (env : Env) (log_data : dict PyValue) (fields : list string) : Prop :=
  exists f_timestamp f_log_id rest,
    fields = f_timestamp :: f_log_id :: rest /\
    format_field json_dumps self (VStr (now_strftime env)) "timestamp" (Some 20)
      = Return f_timestamp /\
    format_field json_dumps self (VStr (slice_to (uuid4_str env) 8)) "log_id" (Some 10)
      = Return f_log_id /\
    Forall2 (item_field json_dumps self) log_data rest.

(** The names with an entry in [field_widths]. *)
Definition recognized_names : list string :=
  ["timestamp"; "log_id"; "user_input"; "response"; "model"; "duration_ms"].

(** The mapping of one chat turn. *)
Definition sample_log_data : dict PyValue :=
  [ ("user_input", VStr "hi"); ("response", VStr "hello");
    ("model", VStr "x"); ("duration_ms", VInt 5) ].

(** ** The script around the formatter *)

Module Io.

(** [c.isspace()] on the characters below 256. *)
Definition is_space (c : ascii) : bool :=
  let n := nat_of_ascii c in
  (((9 <=? n)%nat && (n <=? 13)%nat) || ((28 <=? n)%nat && (n <=? 32)%nat)
   || (n =? 133)%nat || (n =? 160)%nat)%bool.

Fixpoint lstrip (s : string) : string :=
  match s with
  | EmptyString => EmptyString
  | String c s' => if is_space c then lstrip s' else s
  end.

Fixpoint rstrip (s : string) : string :=
  match s with
  | EmptyString => EmptyString
  | String c s' =>
      match rstrip s' with
      | EmptyString => if is_space c then EmptyString else String c EmptyString
      | r => String c r
      end
  end.

(** [s.strip()] *)
Definition strip (s : string) : string := rstrip (lstrip s).

Definition LF : ascii := ascii_of_nat 10.
Definition CR : ascii := ascii_of_nat 13.
Definition newline : string := String LF EmptyString.

(** [f.readlines()] of a file opened for reading as text: a line ends at
    "\n", at "\r\n" or at "\r", each read as "\n" and kept at the end of its
    line; a last line with no line end is kept as it is. *)
Fixpoint readlines (content : string) : list string :=
  match content with
  | EmptyString => []
  | String c rest =>
      if Ascii.eqb c LF then newline :: readlines rest
      else if Ascii.eqb c CR then
        match rest with
        | String c' rest' =>
            if Ascii.eqb c' LF then newline :: readlines rest'
            else newline :: readlines rest
        | EmptyString => [newline]
        end
      else
        match readlines rest with
        | [] => [String c EmptyString]
        | line :: lines => String c line :: lines
        end
  end.

(** [l[-n:]] for a positive [n]. *)
Definition last_n {A : Type} (n : nat) (l : list A) : list A :=
  skipn (List.length l - n) l.

End Io.

Import Io.

(** One entry of [st.session_state.messages]. *)
Record Message : Type := mkMessage { role : string; content : PyValue }.

(** What a run puts on the page. *)
Inductive Widget : Type :=
| StTitle (text : string)
| StWrite (text : string)
| StSubheader (text : string)
| StForm (key text_area_label button_label : string)
| StError (text : string)
| StChatMessage (role : string) (content : PyValue)
| StText (text : string).

(** What the script reads and changes: the session's [messages] (absent until
    a run sets it), the file [chat_logs.txt] (absent until it is first opened
    for appending; opening and writing it are taken to succeed, and a line
    end is written as "\n"), and the page of the current run. *)
Record World : Type := mkWorld {
  session_messages : option (list Message);
  chat_logs : option string;
  page : list Widget
}.

(** What [ollama.chat] returns: a mapping whose values answer [get]. *)
Definition Response : Type := dict (dict PyValue).

(** The inputs of one run: the two widgets of the form, the outcome of
    [ollama.chat(...)], the integer
    [int((datetime.now() - start_time).total_seconds() * 1000)], and what
    [create_log_entry] reads. *)
Record Turn : Type := mkTurn {
  submit_button : bool;
  user_input : string;
  chat : PyResult Response;
  duration_ms : Z;
  turn_env : Env
}.

(** A statement of the script: it changes the world and returns or raises. *)
Definition Script (A : Type) : Type := World -> World * PyResult A.

Definition ret {A : Type} (a : A) : Script A := fun w => (w, Return a).

Definition lift {A : Type} (r : PyResult A) : Script A := fun w => (w, r).

Definition then_ {A B : Type} (m : Script A) (k : A -> Script B) : Script B :=
  fun w =>
    match m w with
    | (w', Return a) => k a w'
    | (w', Raise e) => (w', Raise e)
    end.

(** [try: body  except Exception as e: handler(e)]: what the body did before
    it raised stays done. *)
Definition try_script {A : Type} (body : Script A) (handler : PyExc -> Script A)
  : Script A :=
  fun w =>
    match body w with
    | (w', Return a) => (w', Return a)
    | (w', Raise e) => handler e w'
    end.

Notation "x <~ m ;; k" := (then_ m (fun x => k))
  (at level 61, m at next level, right associativity).
Notation "m >> k" := (then_ m (fun _ => k))
  (at level 61, right associativity).

Definition show (widget : Widget) : Script unit :=
  fun w => (mkWorld (session_messages w) (chat_logs w) (page w ++ [widget])%list, Return tt).

(** [if "messages" not in st.session_state: st.session_state.messages = []] *)
Definition init_messages : Script unit :=
  fun w =>
    match session_messages w with
    | Some _ => (w, Return tt)
    | None => (mkWorld (Some []) (chat_logs w) (page w), Return tt)
    end.

(** [st.session_state.messages.append(message)] *)
Definition append_message (message : Message) : Script unit :=
  fun w =>
    match session_messages w with
    | Some messages =>
        (mkWorld (Some (messages ++ [message])%list) (chat_logs w) (page w), Return tt)
    | None =>
        (w, Raise (mkExc "AttributeError" "st.session_state has no attribute 'messages'"))
    end.

(** [with open("chat_logs.txt", "a", encoding="utf-8") as f: f.write(text)] *)
Definition append_chat_logs (text : string) : Script unit :=
  fun w =>
    let old := match chat_logs w with Some content => content | None => EmptyString end in
    (mkWorld (session_messages w) (Some (old ++ text)) (page w), Return tt).

Definition model_name : string := "deepseek:1.5b".

Section Script.

Variable json_dumps : PyValue -> PyResult string.

(** Lines 111 to 121 and 125 to 133: build the entry and append it. *)
Definition write_log_entry (t : Turn) (response_value duration_value : PyValue)
  : Script unit :=
  let log_data :=
    [ ("user_input", VStr (user_input t)); ("response", response_value);
      ("model", VStr model_name); ("duration_ms", duration_value) ] in
  log_entry <~ lift (create_log_entry json_dumps logger (turn_env t) log_data) ;;
  append_chat_logs (log_entry ++ newline).

(** [if submit_button and user_input: try: ... except Exception as e: ...] *)
Definition handle_submission (t : Turn) : Script unit :=
  if (submit_button t && negb (String.eqb (user_input t) EmptyString))%bool then
    try_script
      (append_message (mkMessage "user" (VStr (user_input t))) >>
       response <~ lift (chat t) ;;
       let assistant_response :=
         dict_get (dict_get response "message" []) "content"
                  (VStr "No response received") in
       append_message (mkMessage "assistant" assistant_response) >>
       write_log_entry t assistant_response (VInt (duration_ms t)))
      (fun e =>
         show (StError ("Error: " ++ exc_str e)) >>
         write_log_entry t (VStr ("Error: " ++ exc_str e)) (VInt 0))
  else ret tt.

(** [for msg in st.session_state.messages: ... st.write(msg["content"])] *)
Definition show_messages : Script unit :=
  fun w =>
    match session_messages w with
    | Some messages =>
        (mkWorld (session_messages w) (chat_logs w)
           (page w ++ map (fun msg => StChatMessage (role msg) (content msg)) messages)%list,
         Return tt)
    | None =>
        (w, Raise (mkExc "AttributeError" "st.session_state has no attribute 'messages'"))
    end.

(** Lines 143 to 149: the last five lines of the file, stripped, or the note
    that there is no file. *)
Definition show_recent_logs : Script unit :=
  fun w =>
    match chat_logs w with
    | Some content =>
        (mkWorld (session_messages w) (chat_logs w)
           (page w ++ map (fun log => StText (strip log)) (last_n 5 (readlines content)))%list,
         Return tt)
    | None => show (StWrite "No logs available yet.") w
    end.

(** One run of the script, top to bottom, on an empty page. *)
Definition run (t : Turn) (w : World) : World * PyResult unit :=
  (show (StTitle "DeepSeek R1:1.5B Chatbot") >>
   show (StWrite "Interact with the DeepSeek R1 model via Ollama, with structured logging.") >>
   init_messages >>
   show (StForm "chat_form" "Your message:" "Send") >>
   handle_submission t >>
   show (StSubheader "Chat History") >>
   show_messages >>
   show (StSubheader "Recent Logs") >>
   show_recent_logs)
  (mkWorld (session_messages w) (chat_logs w) []).

(** The runs of a session, one after the other. *)
Fixpoint run_all (turns : list Turn) (w : World) : World :=
  match turns with
  | [] => w
  | t :: turns' => run_all turns' (fst (run t w))
  end.

End Script.

(** The messages of the session and the text of the file, empty while absent. *)
Definition messages_of (w : World) : list Message :=
  match session_messages w with Some messages => messages | None => [] end.

Definition content_of (w : World) : string :=
  match chat_logs w with Some content => content | None => EmptyString end.

(** The world the handler starts in: the session has its messages, and the
    page holds the title, the line under it and the form. *)
Definition start (w : World) : World :=
  mkWorld (Some (messages_of w)) (chat_logs w)
    [StTitle "DeepSeek R1:1.5B Chatbot";
     StWrite "Interact with the DeepSeek R1 model via Ollama, with structured logging.";
     StForm "chat_form" "Your message:" "Send"].

(** The mapping logged for a turn. *)
Definition turn_log_data (t : Turn) (response_value duration_value : PyValue)
  : dict PyValue :=
  [ ("user_input", VStr (user_input t)); ("response", response_value);
    ("model", VStr model_name); ("duration_ms", duration_value) ].

(** What [msg] the assistant is recorded to have said for a response. *)
Definition assistant_response_of (response : Response) : PyValue :=
  dict_get (dict_get response "message" []) "content" (VStr "No response received").

(** The value a submitted turn logs as its response. *)
Definition logged_response (t : Turn) : PyValue :=
  match chat t with
  | Return response => assistant_response_of response
  | Raise e => VStr ("Error: " ++ exc_str e)
  end.

(** What the section "Recent Logs" shows for a file. *)
Definition recent_logs_of (logs : option string) : list Widget :=
  match logs with
  | Some content => map (fun log => StText (strip log)) (last_n 5 (readlines content))
  | None => [StWrite "No logs available yet."]
  end.

(** No character of the text is a line end. *)
Fixpoint no_line_end (s : string) : bool :=
  match s with
  | EmptyString => true
  | String c s' => (negb (Ascii.eqb c LF) && negb (Ascii.eqb c CR) && no_line_end s')%bool
  end.

(** What the handler does in a session that has its [messages]. *)
Inductive handled (json_dumps : PyValue -> PyResult string)
    (t : Turn) (w : World) (messages : list Message) : World -> Prop :=
| handled_idle :
    submit_button t = false \/ user_input t = "" ->
    handled json_dumps t w messages w
| handled_answer response entry :
    submit_button t = true -> user_input t <> "" ->
    chat t = Return response ->
    create_log_entry json_dumps logger (turn_env t)
      (turn_log_data t (assistant_response_of response) (VInt (duration_ms t)))
      = Return entry ->
    handled json_dumps t w messages
      (mkWorld
         (Some (messages ++ [mkMessage "user" (VStr (user_input t));
                             mkMessage "assistant" (assistant_response_of response)])%list)
         (Some (content_of w ++ entry ++ newline))
         (page w))
| handled_error e entry :
    submit_button t = true -> user_input t <> "" ->
    chat t = Raise e ->
    create_log_entry json_dumps logger (turn_env t)
      (turn_log_data t (VStr ("Error: " ++ exc_str e)) (VInt 0))
      = Return entry ->
    handled json_dumps t w messages
      (mkWorld
         (Some (messages ++ [mkMessage "user" (VStr (user_input t))])%list)
         (Some (content_of w ++ entry ++ newline))
         (page w ++ [StError ("Error: " ++ exc_str e)])%list).

(** Sample inputs of runs: a clock and uuid reading, a first visit, a turn the
    model answers, a turn on which the model call raises, and a run with the
    button not pressed. *)
Definition sample_env : Env :=
  mkEnv "2024-01-01 10:00:00" "1b4e28ba-2fa1-11d2-883f-0016d3cca427".

Definition fresh_world : World := mkWorld None None [].

Definition answered_turn : Turn :=
  mkTurn true "hi"
    (Return [("model", []); ("message", [("role", VStr "assistant"); ("content", VStr "hello")])])
    5 sample_env.

Definition failed_turn : Turn :=
  mkTurn true "hi" (Raise (mkExc "ConnectionError" "connection refused")) 7 sample_env.

Definition idle_turn : Turn :=
  mkTurn false "" (Raise (mkExc "ConnectionError" "connection refused")) 0 sample_env.

(** [float_3_14159] has a 53-bit mantissa and lies within half a unit in the
    last place (2^-52) of 3.14159. *)
Example float_3_14159_nearest :
  exists m,
    float_3_14159 = S754_finite false m (-51) /\
    2 ^ 52 <= Z.pos m < 2 ^ 53 /\
    2 * Z.abs (Z.pos m * 100000 - 314159 * 2 ^ 51) <= 100000.
Proof.
  eexists. split; [reflexivity|]. vm_compute. intuition discriminate.
Qed.

(** ** Running the model on concrete inputs *)

Example format_d_42 : format_d 42 = "42". Proof. reflexivity. Qed.
Example format_d_neg : format_d (-7) = "-7". Proof. reflexivity. Qed.
Example format_d_0 : format_d 0 = "0". Proof. reflexivity. Qed.
Example format_2f_pi :
  format_2f (S754_finite false 7074231776675438 (-51)) = "3.14".
Proof. vm_compute. reflexivity. Qed.
Example format_field_hi :
  format_field json_dumps_refusing logger (VStr "hi") "user_input" (Some 5) = Return "hi   ".
Proof. reflexivity. Qed.
Example format_field_long :
  format_field json_dumps_refusing logger (VStr "abcdefghij") "f" (Some 6) = Return "abc...".
Proof. reflexivity. Qed.
Example format_field_small :
  format_field json_dumps_refusing logger (VStr "abcdef") "f" (Some 2) = Return "abcde...".
Proof. reflexivity. Qed.
Example create_log_entry_ex :
  create_log_entry json_dumps_refusing logger (mkEnv "2024-01-01 10:00:00" "12345678-abcd")
    [("model", VStr "x"); ("duration_ms", VInt 5)]
  = Return "2024-01-01 10:00:00  | 12345678   | x               | 5         ".
Proof. reflexivity. Qed.

(** ** Facts about text *)

Section TextFacts.

Lemma length_append (s t : string) :
  String.length (s ++ t) = (String.length s + String.length t)%nat.
Proof. induction s as [|a s IH]; simpl; [reflexivity | now rewrite IH]. Qed.

Lemma len_append (s t : string) : len (s ++ t) = len s + len t.
Proof. unfold len. rewrite length_append. lia. Qed.

Lemma len_nonneg (s : string) : 0 <= len s.
Proof. unfold len. lia. Qed.

Lemma append_empty_r (s : string) : s ++ "" = s.
Proof. induction s as [|a s IH]; simpl; [reflexivity | now rewrite IH]. Qed.

Lemma length_replicate (n : nat) (c : ascii) : String.length (replicate n c) = n.
Proof. induction n as [|n IH]; simpl; [reflexivity | now rewrite IH]. Qed.

Lemma length_substring0 (n : nat) (s : string) :
  String.length (substring 0 n s) = Nat.min n (String.length s).
Proof.
  revert n. induction s as [|a s IH]; intros [|n]; simpl; try reflexivity.
  now rewrite IH.
Qed.

Lemma substring0_append (n : nat) (s t : string) :
  (n <= String.length s)%nat -> substring 0 n (s ++ t) = substring 0 n s.
Proof.
  revert n. induction s as [|a s IH]; intros [|n] Hn; simpl in *; try reflexivity.
  - destruct t; reflexivity.
  - lia.
  - f_equal. apply IH. lia.
Qed.

Lemma substring0_idem (n : nat) (s : string) :
  substring 0 n (substring 0 n s) = substring 0 n s.
Proof.
  revert n. induction s as [|a s IH]; intros [|n]; simpl; try reflexivity.
  now rewrite IH.
Qed.

Lemma length_substring_le (n m : nat) (s : string) :
  (String.length (substring n m s) <= String.length s - n)%nat.
Proof.
  revert n m. induction s as [|a s IH]; intros [|n] [|m]; simpl; try lia.
  - specialize (IH 0%nat m). lia.
  - apply IH.
  - apply IH.
Qed.

Lemma substring_skip (s t : string) (k : nat) :
  substring (String.length s) k (s ++ t) = substring 0 k t.
Proof. induction s as [|a s IH]; simpl; [reflexivity | exact IH]. Qed.

Lemma prefix_append (s t : string) : prefix s (s ++ t) = true.
Proof.
  induction s as [|a s IH]; simpl; [now destruct t|].
  destruct (ascii_dec a a) as [_|n]; [exact IH | now elim n].
Qed.

End TextFacts.

(** ** [format_field] with a one-character padding *)

Section FormatFieldFacts.

Variable json_dumps : PyValue -> PyResult string.
Variable self : LogFormatter.
Variable c : ascii.
Hypothesis pad_single : padding_char self = String c "".

Lemma ljust_padded (s : string) (w : Z) :
  ljust s w (padding_char self) = Return (padded c w s).
Proof.
  unfold ljust, padded. rewrite pad_single.
  destruct (len s >=? w) eqn:E; [|reflexivity].
  apply Z.geb_le in E.
  replace (Z.to_nat (w - len s)) with 0%nat by lia.
  simpl. now rewrite append_empty_r.
Qed.

Lemma len_padded (s : string) (w : Z) : len (padded c w s) = Z.max w (len s).
Proof.
  unfold padded. rewrite len_append. unfold len at 2.
  rewrite length_replicate. pose proof (len_nonneg s). lia.
Qed.

Lemma prefix_padded (s : string) (w : Z) : prefix s (padded c w s) = true.
Proof. apply prefix_append. Qed.

(** Both branches of [format_field] end in a successful [ljust]. *)
Lemma format_field_padded (value : PyValue) (field_name : string) (width : option Z) :
  format_field json_dumps self value field_name width =
  let w := width_or width (max_field_length self) in
  Return (padded c w
    match type_formats json_dumps value with
    | Return formatted =>
        if len formatted >? w then slice_to formatted (w - 3) ++ "..." else formatted
    | Raise e => error_text field_name e
    end).
Proof.
  unfold format_field, try_except, bind, error_text.
  destruct (type_formats json_dumps value) as [formatted|e]; cbv zeta;
    now rewrite ljust_padded.
Qed.

End FormatFieldFacts.

(** The cut of an over-long text at a width of three or more has the width. *)
Lemma len_cut (formatted : string) (w : Z) :
  3 <= w -> w < len formatted -> len (slice_to formatted (w - 3) ++ "...") = w.
Proof.
  intros Hw Hlen. unfold slice_to.
  destruct (w - 3 <? 0) eqn:E; [apply Z.ltb_lt in E; lia|].
  rewrite len_append. unfold len in *. rewrite length_substring0. simpl. lia.
Qed.

(** At a width below three the slice bound is negative and counts from the end. *)
Lemma len_cut_narrow (formatted : string) (w : Z) :
  0 < w < 3 -> w < len formatted ->
  len (slice_to formatted (w - 3) ++ "...") = len formatted + w.
Proof.
  intros Hw Hlen. unfold slice_to.
  destruct (w - 3 <? 0) eqn:E; [|apply Z.ltb_ge in E; lia].
  rewrite len_append. unfold len in *. rewrite length_substring0. simpl. lia.
Qed.

Lemma width_or_nonzero (w default : Z) : w <> 0 -> width_or (Some w) default = w.
Proof. intro H. unfold width_or. now destruct (Z.eqb_spec w 0). Qed.

Lemma padded_full (c : ascii) (w : Z) (s : string) : w <= len s -> padded c w s = s.
Proof.
  intro H. unfold padded. replace (Z.to_nat (w - len s)) with 0%nat by lia.
  apply append_empty_r.
Qed.

(** ** Truncation and padding of text values *)

(** No text satisfies the truncation promise at a width below three: the
    ellipsis alone has three characters. *)
Lemma truncated_to_width (text out : string) (w : Z) :
  truncated_to text w out -> 3 <= w.
Proof.
  intros (Hlen & _ & Htail).
  pose proof (length_substring_le (String.length out - 3) 3 out) as Hle.
  rewrite Htail in Hle. simpl in Hle. unfold len in Hlen. lia.
Qed.

(** C1, restricted to widths of three or more: a text longer than the width
    comes back cut to exactly the width, its first [w - 3] characters kept and
    the last three characters being the ellipsis. *)
Theorem format_field_truncates
    (json_dumps : PyValue -> PyResult string) (self : LogFormatter) (c : ascii)
    (text field_name : string) (w : Z) :
  padding_char self = String c "" ->
  3 <= w ->
  w < len text ->
  exists out,
    format_field json_dumps self (VStr text) field_name (Some w) = Return out /\
    truncated_to text w out.
Proof.
  intros Hpad Hw Hlen.
  exists (slice_to text (w - 3) ++ "...").
  pose proof (len_cut text w Hw Hlen) as Hcut.
  split.
  - rewrite (format_field_padded json_dumps self c Hpad). cbv zeta.
    rewrite width_or_nonzero by lia. simpl type_formats. cbv iota beta.
    replace (len text >? w) with true by (symmetry; apply Z.gtb_lt; lia).
    rewrite padded_full by lia. reflexivity.
  - unfold truncated_to. split; [exact Hcut|].
    unfold slice_to in *.
    destruct (w - 3 <? 0) eqn:E; [apply Z.ltb_lt in E; lia|].
    assert (Hk : (Z.to_nat (w - 3) <= String.length text)%nat)
      by (unfold len in Hlen; lia).
    split.
    + rewrite substring0_append by (rewrite length_substring0; lia).
      apply substring0_idem.
    + rewrite length_append. simpl String.length.
      replace (String.length (substring 0 (Z.to_nat (w - 3)) text) + 3 - 3)%nat
        with (String.length (substring 0 (Z.to_nat (w - 3)) text)) by lia.
      now rewrite substring_skip.
Qed.

Lemma format_field_truncates_witness :
  exists out,
    format_field json_dumps_refusing logger (VStr "abcdefghij") "f" (Some 6) = Return out /\
    truncated_to "abcdefghij" 6 out.
Proof.
  apply (format_field_truncates json_dumps_refusing logger " "%char "abcdefghij" "f" 6).
  - reflexivity.
  - lia.
  - vm_compute. reflexivity.
Defined.

(** C1 as stated fails at width 2: the six-character text "abcdef" is longer
    than the width, the padding is one character, and the output "abcde..."
    has eight characters. *)
Lemma format_field_truncates_width_2 :
  format_field json_dumps_refusing logger (VStr "abcdef") "f" (Some 2) = Return "abcde..." /\
  padding_char logger = " " /\
  0 < 2 < len "abcdef" /\
  (truncated_to "abcdef" 2 "abcde..." -> False).
Proof.
  repeat split; try reflexivity.
  intros [Hlen _]. vm_compute in Hlen. discriminate.
Qed.

(** C5: a text shorter than the width comes back whole, followed by padding
    characters up to exactly the width. *)
Theorem format_field_pads_short
    (json_dumps : PyValue -> PyResult string) (self : LogFormatter) (c : ascii)
    (text field_name : string) (w : Z) :
  padding_char self = String c "" ->
  len text < w ->
  exists out,
    format_field json_dumps self (VStr text) field_name (Some w) = Return out /\
    len out = w /\
    prefix text out = true /\
    out = text ++ replicate (Z.to_nat (w - len text)) c.
Proof.
  intros Hpad Hlen. pose proof (len_nonneg text) as H0.
  exists (padded c w text). repeat split.
  - rewrite (format_field_padded json_dumps self c Hpad). cbv zeta.
    rewrite width_or_nonzero by lia. simpl type_formats. cbv iota beta.
    replace (len text >? w) with false; [reflexivity|].
    symmetry. rewrite Z.gtb_ltb. apply Z.ltb_ge. lia.
  - rewrite len_padded. lia.
  - apply prefix_padded.
Qed.

Lemma format_field_pads_short_witness :
  exists out,
    format_field json_dumps_refusing logger (VStr "hi") "user_input" (Some 50) = Return out /\
    len out = 50 /\
    prefix "hi" out = true /\
    out = "hi" ++ replicate (Z.to_nat (50 - len "hi")) " ".
Proof.
  apply (format_field_pads_short json_dumps_refusing logger " "%char "hi" "user_input" 50).
  - reflexivity.
  - vm_compute. reflexivity.
Defined.

(** C8: at a width of 1 or 2, a rendered text longer than the width (it then
    has at least [3 - w] characters) comes back with [len rendered + w]
    characters, more than the width: all but the last [3 - w] characters of
    the text, then the ellipsis. *)
Theorem format_field_narrow_width_overflows
    (json_dumps : PyValue -> PyResult string) (self : LogFormatter) (c : ascii)
    (value : PyValue) (rendered field_name : string) (w : Z) :
  padding_char self = String c "" ->
  type_formats json_dumps value = Return rendered ->
  0 < w < 3 ->
  w < len rendered ->
  exists out,
    format_field json_dumps self value field_name (Some w) = Return out /\
    out = slice_to rendered (w - 3) ++ "..." /\
    len out = len rendered + w /\
    w < len out.
Proof.
  intros Hpad Hrender Hw Hlen.
  pose proof (len_cut_narrow rendered w Hw Hlen) as Hcut.
  exists (slice_to rendered (w - 3) ++ "..."). repeat split; try lia.
  rewrite (format_field_padded json_dumps self c Hpad). cbv zeta.
  rewrite width_or_nonzero by lia. rewrite Hrender.
  replace (len rendered >? w) with true by (symmetry; apply Z.gtb_lt; lia).
  rewrite padded_full by lia. reflexivity.
Qed.

Lemma format_field_narrow_width_overflows_witness :
  exists out,
    format_field json_dumps_refusing logger (VInt 12345) "duration_ms" (Some 1) = Return out /\
    out = slice_to "12345" (1 - 3) ++ "..." /\
    len out = len "12345" + 1 /\
    1 < len out.
Proof.
  apply (format_field_narrow_width_overflows
           json_dumps_refusing logger " "%char (VInt 12345) "12345" "duration_ms" 1).
  - reflexivity.
  - reflexivity.
  - lia.
  - vm_compute. reflexivity.
Defined.

(** A positive width is a lower bound on what [format_field] returns. *)
Lemma format_field_lower_bound
    (json_dumps : PyValue -> PyResult string) (self : LogFormatter) (c : ascii)
    (value : PyValue) (field_name : string) (w : Z) :
  padding_char self = String c "" ->
  0 < w ->
  exists out,
    format_field json_dumps self value field_name (Some w) = Return out /\
    w <= len out.
Proof.
  intros Hpad Hw.
  rewrite (format_field_padded json_dumps self c Hpad). cbv zeta.
  rewrite width_or_nonzero by lia.
  eexists. split; [reflexivity|].
  rewrite len_padded. lia.
Qed.

(** C10: at a positive width the returned text is never shorter than the
    width, whichever branch produced it. *)
Theorem format_field_at_least_width
    (json_dumps : PyValue -> PyResult string) (self : LogFormatter) (c : ascii)
    (value : PyValue) (field_name : string) (w : Z) :
  padding_char self = String c "" ->
  0 < w ->
  exists out,
    format_field json_dumps self value field_name (Some w) = Return out /\
    w <= len out.
Proof.
  intros Hpad Hw. now apply (format_field_lower_bound json_dumps self c).
Qed.

Lemma format_field_at_least_width_witness :
  exists out,
    format_field json_dumps_refusing logger (VList [VObject (Return "{1, 2}")]) "response" (Some 3) = Return out /\
    3 <= len out.
Proof.
  apply (format_field_at_least_width
           json_dumps_refusing logger " "%char (VList [VObject (Return "{1, 2}")]) "response" 3).
  - reflexivity.
  - lia.
Defined.

(** ** The fallback *)




(** A padding text of two characters makes [ljust] raise in the handler too. *)
Example format_field_wide_padding :
  format_field json_dumps_refusing (LogFormatter_init None (Some "ab")) (VStr "hi") "f" (Some 5)
  = Raise (TypeError "The fill character must be exactly one character long").
Proof. reflexivity. Qed.

Example format_field_fallback :
  format_field json_dumps_refusing logger (VObject (Raise (TypeError "bad"))) "model" (Some 5)
  = Return "Error formatting model: bad".
Proof. reflexivity. Qed.

Example format_field_fallback_padded :
  format_field json_dumps_refusing logger (VList [VObject (Return "{1, 2}")]) "m" (Some 70)
  = Return "Error formatting m: Object of type set is not JSON serializable       ".
Proof. reflexivity. Qed.

(** ** The width argument *)

(** C9: a width of 0 is taken as no width at all, and no width means
    [max_field_length], while any other width is used as given; so with a
    positive [max_field_length] the field returned for width 0 has at least
    that many characters, and is not empty. *)
Theorem format_field_zero_width_is_default
    (json_dumps : PyValue -> PyResult string) (self : LogFormatter)
    (value : PyValue) (field_name : string) :
  format_field json_dumps self value field_name (Some 0)
    = format_field json_dumps self value field_name None /\
  format_field json_dumps self value field_name None
    = format_field json_dumps self value field_name (Some (max_field_length self)) /\
  (forall w, w <> 0 -> width_or (Some w) (max_field_length self) = w) /\
  (forall c,
     padding_char self = String c "" ->
     0 < max_field_length self ->
     exists out,
       format_field json_dumps self value field_name (Some 0) = Return out /\
       max_field_length self <= len out).
Proof.
  assert (H0 : format_field json_dumps self value field_name (Some 0)
               = format_field json_dumps self value field_name None) by reflexivity.
  assert (Hd : format_field json_dumps self value field_name None
               = format_field json_dumps self value field_name
                   (Some (max_field_length self))).
  { unfold format_field, width_or.
    now destruct (Z.eqb_spec (max_field_length self) 0) as [->|_]. }
  split; [exact H0|]. split; [exact Hd|].
  split; [intros w Hw; now apply width_or_nonzero|].
  intros c Hpad Hmax. rewrite H0, Hd.
  exact (format_field_lower_bound json_dumps self c value field_name
           (max_field_length self) Hpad Hmax).
Qed.

Lemma format_field_zero_width_is_default_witness :
  exists out,
    format_field json_dumps_refusing logger (VStr "hi") "model" (Some 0) = Return out /\
    max_field_length logger <= len out.
Proof.
  destruct (format_field_zero_width_is_default
              json_dumps_refusing logger (VStr "hi") "model") as (_ & _ & _ & H).
  apply (H " "%char).
  - reflexivity.
  - reflexivity.
Defined.

Example format_field_width_0 :
  format_field json_dumps_refusing logger (VStr "hi") "model" (Some 0)
  = Return (padded " " 100 "hi").
Proof. reflexivity. Qed.

(** ** Rendering by kind *)

(** C6: the integer 42 and the real 3.14159 at width 10, and the boolean
    True at any width that holds its four characters; each kind is rendered
    by its own rule. *)
Theorem format_field_renders_by_kind
    (json_dumps : PyValue -> PyResult string) (self : LogFormatter) (c : ascii)
    (field_name : string) :
  padding_char self = String c "" ->
  format_field json_dumps self (VInt 42) field_name (Some 10)
    = Return ("42" ++ replicate 8 c) /\
  format_field json_dumps self (VFloat float_3_14159) field_name (Some 10)
    = Return ("3.14" ++ replicate 6 c) /\
  type_formats json_dumps (VBool true) = Return "true" /\
  (forall w, 4 <= w ->
     format_field json_dumps self (VBool true) field_name (Some w)
       = Return ("true" ++ replicate (Z.to_nat (w - 4)) c)) /\
  (forall s n x b,
     type_formats json_dumps (VStr s) = Return s /\
     type_formats json_dumps (VInt n) = Return (format_d n) /\
     type_formats json_dumps (VFloat x) = Return (format_2f x) /\
     type_formats json_dumps (VBool b) = Return (if b then "true" else "false")).
Proof.
  intro Hpad.
  split; [now rewrite (format_field_padded json_dumps self c Hpad)|].
  split; [now rewrite (format_field_padded json_dumps self c Hpad)|].
  split; [reflexivity|].
  split.
  - intros w Hw. rewrite (format_field_padded json_dumps self c Hpad). cbv zeta.
    rewrite width_or_nonzero by lia.
    change (type_formats json_dumps (VBool true)) with (@Return string "true").
    cbv iota beta. change (len "true") with 4.
    replace (4 >? w) with false; [reflexivity|].
    symmetry. rewrite Z.gtb_ltb. apply Z.ltb_ge. lia.
  - intros s n x b. repeat split. now destruct b.
Qed.

Lemma format_field_renders_by_kind_witness :
  format_field json_dumps_refusing logger (VInt 42) "duration_ms" (Some 10)
    = Return ("42" ++ replicate 8 " ") /\
  format_field json_dumps_refusing logger (VFloat float_3_14159) "duration_ms" (Some 10)
    = Return ("3.14" ++ replicate 6 " ") /\
  type_formats json_dumps_refusing (VBool true) = Return "true" /\
  (forall w, 4 <= w ->
     format_field json_dumps_refusing logger (VBool true) "duration_ms" (Some w)
       = Return ("true" ++ replicate (Z.to_nat (w - 4)) " ")) /\
  (forall s n x b,
     type_formats json_dumps_refusing (VStr s) = Return s /\
     type_formats json_dumps_refusing (VInt n) = Return (format_d n) /\
     type_formats json_dumps_refusing (VFloat x) = Return (format_2f x) /\
     type_formats json_dumps_refusing (VBool b) = Return (if b then "true" else "false")).
Proof.
  apply (format_field_renders_by_kind json_dumps_refusing logger " "%char "duration_ms").
  reflexivity.
Defined.

(** ** [create_log_entry] *)

Section CreateLogEntryFacts.

Variable json_dumps : PyValue -> PyResult string.
Variable self : LogFormatter.
Variable c : ascii.
Hypothesis pad_single : padding_char self = String c "".

(** The loop runs to its end and appends one field per item, in order. *)
Lemma format_items_appends (items : dict PyValue) :
  forall formatted_fields,
  exists rest,
    format_items json_dumps self items formatted_fields
      = Return (formatted_fields ++ rest)%list /\
    Forall2 (item_field json_dumps self) items rest.
Proof.
  induction items as [|[key value] items IH]; intro acc.
  - exists []. simpl. rewrite app_nil_r. split; [reflexivity | constructor].
  - simpl format_items.
    assert (exists field, item_field json_dumps self (key, value) field)
      as [field Hfield].
    { eexists. apply (format_field_padded json_dumps self c pad_single). }
    destruct (IH (acc ++ [field])%list) as (rest & Hrest & Hall).
    exists (field :: rest). split.
    + unfold item_field in Hfield. simpl in Hfield. rewrite Hfield. simpl bind.
      rewrite Hrest. rewrite <- app_assoc. reflexivity.
    + constructor; [exact Hfield | exact Hall].
Qed.

(** The entry is the join of a list of fields laid out as [entry_layout] says. *)
Lemma create_log_entry_fields (env : Env) (log_data : dict PyValue) :
  exists fields,
    create_log_entry json_dumps self env log_data = Return (join " | " fields) /\
    entry_layout json_dumps self env log_data fields.
Proof.
  unfold create_log_entry, entry_layout.
  simpl dict_getitem. simpl bind.
  destruct (format_field json_dumps self (VStr (now_strftime env)) "timestamp" (Some 20))
    as [f_timestamp|e] eqn:Hts;
    [|rewrite (format_field_padded json_dumps self c pad_single) in Hts; discriminate].
  destruct (format_field json_dumps self (VStr (slice_to (uuid4_str env) 8)) "log_id"
              (Some 10))
    as [f_log_id|e] eqn:Hid;
    [|rewrite (format_field_padded json_dumps self c pad_single) in Hid; discriminate].
  simpl bind.
  destruct (format_items_appends log_data [f_timestamp; f_log_id])
    as (rest & Hrest & Hall).
  rewrite Hrest. cbn [bind app].
  exists (f_timestamp :: f_log_id :: rest). split; [reflexivity|].
  exists f_timestamp, f_log_id, rest. auto.
Qed.

End CreateLogEntryFacts.

(** C4: the entry is the join by " | " of the timestamp field, the short-id
    field and then one field per item of the mapping, in the order of the
    items. *)
Theorem create_log_entry_layout
    (json_dumps : PyValue -> PyResult string) (self : LogFormatter) (c : ascii)
    (env : Env) (log_data : dict PyValue) :
  padding_char self = String c "" ->
  exists fields,
    create_log_entry json_dumps self env log_data = Return (join " | " fields) /\
    entry_layout json_dumps self env log_data fields /\
    List.length fields = (2 + List.length log_data)%nat.
Proof.
  intro Hpad.
  destruct (create_log_entry_fields json_dumps self c Hpad env log_data)
    as (fields & Hentry & Hlayout).
  exists fields. split; [exact Hentry|]. split; [exact Hlayout|].
  destruct Hlayout as (f0 & f1 & rest & -> & _ & _ & Hall).
  simpl. now rewrite (Forall2_length Hall).
Qed.

Lemma create_log_entry_layout_witness :
  exists fields,
    create_log_entry json_dumps_refusing logger (mkEnv "2024-01-01 10:00:00" "12345678-abcd")
      [("model", VStr "x"); ("user_input", VStr "hi")]
      = Return (join " | " fields) /\
    entry_layout json_dumps_refusing logger (mkEnv "2024-01-01 10:00:00" "12345678-abcd")
      [("model", VStr "x"); ("user_input", VStr "hi")] fields /\
    List.length fields
      = (2 + List.length [("model", VStr "x"); ("user_input", VStr "hi")])%nat.
Proof.
  apply (create_log_entry_layout json_dumps_refusing logger " "%char).
  reflexivity.
Defined.

(** A text value at a width of three or more yields exactly the width. *)
Lemma format_field_text_width
    (json_dumps : PyValue -> PyResult string) (self : LogFormatter) (c : ascii)
    (text field_name out : string) (w : Z) :
  padding_char self = String c "" ->
  3 <= w ->
  format_field json_dumps self (VStr text) field_name (Some w) = Return out ->
  len out = w.
Proof.
  intros Hpad Hw. rewrite (format_field_padded json_dumps self c Hpad). cbv zeta.
  rewrite width_or_nonzero by lia. simpl type_formats. cbv iota beta.
  intros [= <-]. rewrite len_padded.
  destruct (len text >? w) eqn:E.
  - apply Z.gtb_lt in E. rewrite len_cut by lia. lia.
  - rewrite Z.gtb_ltb in E. apply Z.ltb_ge in E. lia.
Qed.

(** C3: the entry for the sample mapping is six fields joined by " | ": the
    timestamp, the id, and the four given fields in their order, of lengths
    20, 10, 50, 80, 15 and 10, which with five separators makes 200
    characters. *)
Theorem create_log_entry_sample
    (json_dumps : PyValue -> PyResult string) (self : LogFormatter) (c : ascii)
    (env : Env) :
  padding_char self = String c "" ->
  exists f_timestamp f_log_id f_user_input f_response f_model f_duration_ms,
    create_log_entry json_dumps self env sample_log_data
      = Return (join " | "
          [f_timestamp; f_log_id; f_user_input; f_response; f_model; f_duration_ms]) /\
    format_field json_dumps self (VStr (now_strftime env)) "timestamp" (Some 20)
      = Return f_timestamp /\
    format_field json_dumps self (VStr (slice_to (uuid4_str env) 8)) "log_id" (Some 10)
      = Return f_log_id /\
    f_user_input = "hi" ++ replicate 48 c /\
    f_response = "hello" ++ replicate 75 c /\
    f_model = "x" ++ replicate 14 c /\
    f_duration_ms = "5" ++ replicate 9 c /\
    map len [f_timestamp; f_log_id; f_user_input; f_response; f_model; f_duration_ms]
      = [20; 10; 50; 80; 15; 10] /\
    len (join " | "
           [f_timestamp; f_log_id; f_user_input; f_response; f_model; f_duration_ms])
      = 200.
Proof.
  intro Hpad.
  destruct (create_log_entry_fields json_dumps self c Hpad env sample_log_data)
    as (fields & Hentry & f0 & f1 & rest & -> & Hts & Hid & Hall).
  unfold sample_log_data in Hall.
  inversion Hall as [|? f2 ? r2 H2 Hall2]; subst.
  inversion Hall2 as [|? f3 ? r3 H3 Hall3]; subst.
  inversion Hall3 as [|? f4 ? r4 H4 Hall4]; subst.
  inversion Hall4 as [|? f5 ? r5 H5 Hall5]; subst.
  inversion Hall5; subst.
  unfold item_field in H2, H3, H4, H5. cbn [fst snd] in H2, H3, H4, H5.
  rewrite (format_field_padded json_dumps self c Hpad) in H2, H3, H4, H5.
  injection H2 as <-. injection H3 as <-. injection H4 as <-. injection H5 as <-.
  exists f0, f1. do 4 eexists.
  split; [exact Hentry|]. split; [exact Hts|]. split; [exact Hid|].
  do 4 (split; [reflexivity|]).
  pose proof (format_field_text_width json_dumps self c _ _ f0 20 Hpad ltac:(lia) Hts)
    as H0.
  pose proof (format_field_text_width json_dumps self c _ _ f1 10 Hpad ltac:(lia) Hid)
    as H1.
  split.
  - cbn [map]. rewrite H0, H1. reflexivity.
  - cbn [join String.concat]. rewrite !len_append, H0, H1. reflexivity.
Qed.

Lemma create_log_entry_sample_witness :
  exists f_timestamp f_log_id f_user_input f_response f_model f_duration_ms,
    create_log_entry json_dumps_refusing logger
        (mkEnv "2024-01-01 10:00:00" "1b4e28ba-2fa1-11d2-883f-0016d3cca427")
        sample_log_data
      = Return (join " | "
          [f_timestamp; f_log_id; f_user_input; f_response; f_model; f_duration_ms]) /\
    format_field json_dumps_refusing logger (VStr "2024-01-01 10:00:00")
        "timestamp" (Some 20)
      = Return f_timestamp /\
    format_field json_dumps_refusing logger
        (VStr (slice_to "1b4e28ba-2fa1-11d2-883f-0016d3cca427" 8)) "log_id" (Some 10)
      = Return f_log_id /\
    f_user_input = "hi" ++ replicate 48 " " /\
    f_response = "hello" ++ replicate 75 " " /\
    f_model = "x" ++ replicate 14 " " /\
    f_duration_ms = "5" ++ replicate 9 " " /\
    map len [f_timestamp; f_log_id; f_user_input; f_response; f_model; f_duration_ms]
      = [20; 10; 50; 80; 15; 10] /\
    len (join " | "
           [f_timestamp; f_log_id; f_user_input; f_response; f_model; f_duration_ms])
      = 200.
Proof.
  apply (create_log_entry_sample json_dumps_refusing logger " "%char
           (mkEnv "2024-01-01 10:00:00" "1b4e28ba-2fa1-11d2-883f-0016d3cca427")).
  reflexivity.
Defined.

(** A name outside the table gets the default of the lookup. *)
Lemma field_widths_default (key : string) (default : Z) :
  ~ In key recognized_names -> dict_get field_widths key default = default.
Proof.
  unfold recognized_names, field_widths. intro Hnot. cbn [dict_get].
  repeat match goal with
  | |- context [String.eqb ?k key] =>
      destruct (String.eqb_spec k key) as [Heq|_];
      [exfalso; apply Hnot; rewrite <- Heq; simpl; tauto|]
  end.
  reflexivity.
Qed.

(** C7: an item whose name is none of the six recognized names is rendered at
    [max_field_length], which is 100 for a formatter built with the default
    and for the module's [logger]. *)
Theorem create_log_entry_unrecognized_width
    (json_dumps : PyValue -> PyResult string) (self : LogFormatter) (c : ascii)
    (env : Env) (before after : dict PyValue) (key : string) (value : PyValue) :
  padding_char self = String c "" ->
  ~ In key recognized_names ->
  dict_get field_widths key (max_field_length self) = max_field_length self /\
  (exists fields field,
     create_log_entry json_dumps self env (before ++ (key, value) :: after)%list
       = Return (join " | " fields) /\
     nth_error fields (2 + List.length before) = Some field /\
     format_field json_dumps self value key (Some (max_field_length self))
       = Return field) /\
  (forall padding, max_field_length (LogFormatter_init None padding) = 100) /\
  max_field_length logger = 100.
Proof.
  intros Hpad Hnot.
  pose proof (field_widths_default key (max_field_length self) Hnot) as Hwidth.
  split; [exact Hwidth|]. split; [|split; [intros; reflexivity | reflexivity]].
  destruct (create_log_entry_fields json_dumps self c Hpad env
              (before ++ (key, value) :: after)%list)
    as (fields & Hentry & f0 & f1 & rest & -> & _ & _ & Hall).
  apply Forall2_app_inv_l in Hall.
  destruct Hall as (r1 & r2 & Hbefore & Hrest & ->).
  inversion Hrest as [|? field ? r3 Hfield _]; subst.
  exists (f0 :: f1 :: r1 ++ field :: r3)%list, field.
  split; [exact Hentry|]. split.
  - cbn [Nat.add nth_error]. rewrite (Forall2_length Hbefore).
    rewrite nth_error_app2 by lia. now rewrite Nat.sub_diag.
  - unfold item_field in Hfield. cbn [fst snd] in Hfield.
    now rewrite Hwidth in Hfield.
Qed.

Lemma create_log_entry_unrecognized_width_witness :
  dict_get field_widths "session" (max_field_length logger) = max_field_length logger /\
  (exists fields field,
     create_log_entry json_dumps_refusing logger
         (mkEnv "2024-01-01 10:00:00" "1b4e28ba-2fa1-11d2-883f-0016d3cca427")
         ([("model", VStr "x")] ++ ("session", VInt 7) :: [("duration_ms", VInt 5)])%list
       = Return (join " | " fields) /\
     nth_error fields (2 + List.length [("model", VStr "x")]) = Some field /\
     format_field json_dumps_refusing logger (VInt 7) "session"
         (Some (max_field_length logger))
       = Return field) /\
  (forall padding, max_field_length (LogFormatter_init None padding) = 100) /\
  max_field_length logger = 100.
Proof.
  apply (create_log_entry_unrecognized_width json_dumps_refusing logger " "%char
           (mkEnv "2024-01-01 10:00:00" "1b4e28ba-2fa1-11d2-883f-0016d3cca427")
           [("model", VStr "x")] [("duration_ms", VInt 5)] "session" (VInt 7)).
  - reflexivity.
  - simpl. intros [H|[H|[H|[H|[H|[H|[]]]]]]]; discriminate H.
Defined.

Example create_log_entry_session :
  create_log_entry json_dumps_refusing logger (mkEnv "2024-01-01 10:00:00" "1b4e28ba-2fa1")
    [("session", VInt 7)]
  = Return ("2024-01-01 10:00:00  | 1b4e28ba   | " ++ padded " " 100 "7").
Proof. reflexivity. Qed.

(** ** More on [format_field]: every kind of value, every width *)

Section FormatFieldMore.

Variable json_dumps : PyValue -> PyResult string.
Variable self : LogFormatter.
Variable c : ascii.
Hypothesis pad_single : padding_char self = String c "".

(** The field for a value whose rendering returned, at a nonzero width. *)
Lemma format_field_rendered (value : PyValue) (rendered field_name : string) (w : Z) :
  type_formats json_dumps value = Return rendered ->
  w <> 0 ->
  format_field json_dumps self value field_name (Some w)
  = Return (padded c w (if len rendered >? w
                        then slice_to rendered (w - 3) ++ "..."
                        else rendered)).
Proof.
  intros Hrender Hw.
  rewrite (format_field_padded json_dumps self c pad_single). cbv zeta.
  rewrite width_or_nonzero by exact Hw. now rewrite Hrender.
Qed.

(** Cut or kept, then padded: at a width of three or more, the width. *)
Lemma len_fitted (rendered : string) (w : Z) :
  3 <= w ->
  len (padded c w (if len rendered >? w
                   then slice_to rendered (w - 3) ++ "..."
                   else rendered)) = w.
Proof.
  intro Hw. rewrite len_padded.
  destruct (len rendered >? w) eqn:E.
  - apply Z.gtb_lt in E. rewrite len_cut by lia. lia.
  - rewrite Z.gtb_ltb in E. apply Z.ltb_ge in E. lia.
Qed.

(** X1: whatever the kind of the value, a rendered text that is not longer
    than a nonzero width is returned whole, followed by padding up to exactly
    the width; a text of exactly the width is returned as it is. *)
Theorem format_field_fits
    (value : PyValue) (rendered field_name : string) (w : Z) :
  type_formats json_dumps value = Return rendered ->
  w <> 0 ->
  len rendered <= w ->
  format_field json_dumps self value field_name (Some w)
    = Return (rendered ++ replicate (Z.to_nat (w - len rendered)) c) /\
  len (rendered ++ replicate (Z.to_nat (w - len rendered)) c) = w /\
  (len rendered = w ->
   format_field json_dumps self value field_name (Some w) = Return rendered).
Proof.
  intros Hrender Hw Hlen.
  assert (Hout : format_field json_dumps self value field_name (Some w)
                 = Return (padded c w rendered)).
  { rewrite (format_field_padded json_dumps self c pad_single). cbv zeta.
    rewrite width_or_nonzero by exact Hw. rewrite Hrender.
    replace (len rendered >? w) with false; [reflexivity|].
    symmetry. rewrite Z.gtb_ltb. apply Z.ltb_ge. lia. }
  split; [exact Hout|]. split.
  - fold (padded c w rendered). rewrite len_padded. lia.
  - intro Heq. rewrite Hout. f_equal. apply padded_full. lia.
Qed.

(** X2: whatever the kind of the value, when rendering returns and the width
    is three or more the field has exactly the width; an over-long rendering
    is cut to its first [w - 3] characters and the ellipsis. *)
Theorem format_field_fixed_width
    (value : PyValue) (rendered field_name : string) (w : Z) :
  type_formats json_dumps value = Return rendered ->
  3 <= w ->
  exists out,
    format_field json_dumps self value field_name (Some w) = Return out /\
    len out = w /\
    (w < len rendered -> out = substring 0 (Z.to_nat (w - 3)) rendered ++ "...").
Proof.
  intros Hrender Hw.
  rewrite (format_field_padded json_dumps self c pad_single). cbv zeta.
  rewrite width_or_nonzero by lia. rewrite Hrender.
  eexists. split; [reflexivity|].
  destruct (len rendered >? w) eqn:E.
  - apply Z.gtb_lt in E. pose proof (len_cut rendered w Hw E) as Hcut.
    split; [rewrite len_padded; lia|].
    intros _. rewrite padded_full by lia.
    unfold slice_to. now replace (w - 3 <? 0) with false by (symmetry; apply Z.ltb_ge; lia).
  - rewrite Z.gtb_ltb in E. apply Z.ltb_ge in E.
    split; [rewrite len_padded; lia | lia].
Qed.

(** X3: when rendering raises and the error text, of
    [19 + len field_name + len (str e)] characters, is longer than the
    width, the field is the error text alone, longer than the width. *)
Theorem format_field_fallback_overflows
    (value : PyValue) (e : PyExc) (field_name : string) (width : option Z) :
  type_formats json_dumps value = Raise e ->
  width_or width (max_field_length self) < 19 + len field_name + len (exc_str e) ->
  exists out,
    format_field json_dumps self value field_name width = Return out /\
    out = "Error formatting " ++ field_name ++ ": " ++ exc_str e /\
    len out = 19 + len field_name + len (exc_str e) /\
    width_or width (max_field_length self) < len out.
Proof.
  intros Hrender Hw.
  assert (Hlen : len (error_text field_name e)
                 = 19 + len field_name + len (exc_str e)).
  { unfold error_text. rewrite !len_append.
    change (len "Error formatting ") with 17. change (len ": ") with 2. lia. }
  exists (error_text field_name e).
  split; [|split; [reflexivity | split; [exact Hlen | lia]]].
  rewrite (format_field_padded json_dumps self c pad_single). cbv zeta.
  rewrite Hrender. now rewrite padded_full by lia.
Qed.

(** X4: at a negative width every rendered text counts as too long: the
    field is the text without its last [3 - w] characters, then the ellipsis,
    with no padding; it has [max 3 (len rendered + w)] characters. *)
Theorem format_field_negative_width
    (value : PyValue) (rendered field_name : string) (w : Z) :
  type_formats json_dumps value = Return rendered ->
  w < 0 ->
  exists out,
    format_field json_dumps self value field_name (Some w) = Return out /\
    out = substring 0 (Z.to_nat (len rendered + w - 3)) rendered ++ "..." /\
    len out = Z.max 3 (len rendered + w).
Proof.
  intros Hrender Hw. pose proof (len_nonneg rendered) as H0.
  assert (Hlen : len (slice_to rendered (w - 3) ++ "...")
                 = Z.max 3 (len rendered + w)).
  { unfold slice_to. replace (w - 3 <? 0) with true by (symmetry; apply Z.ltb_lt; lia).
    rewrite len_append. unfold len in *. rewrite length_substring0. simpl. lia. }
  exists (slice_to rendered (w - 3) ++ "...").
  split; [|split; [|exact Hlen]].
  - rewrite (format_field_padded json_dumps self c pad_single). cbv zeta.
    rewrite width_or_nonzero by lia. rewrite Hrender.
    replace (len rendered >? w) with true by (symmetry; apply Z.gtb_lt; lia).
    now rewrite padded_full by lia.
  - unfold slice_to. replace (w - 3 <? 0) with true by (symmetry; apply Z.ltb_lt; lia).
    now replace (len rendered + (w - 3)) with (len rendered + w - 3) by lia.
Qed.

(** X5: formatting is idempotent: a field obtained at a width of three or
    more from a value whose rendering returned, formatted again as a text at
    the same width, comes back unchanged. *)
Theorem format_field_idempotent
    (value : PyValue) (rendered field_name field_name' out : string) (w : Z) :
  type_formats json_dumps value = Return rendered ->
  3 <= w ->
  format_field json_dumps self value field_name (Some w) = Return out ->
  format_field json_dumps self (VStr out) field_name' (Some w) = Return out.
Proof.
  intros Hrender Hw Hout.
  rewrite (format_field_rendered value rendered field_name w Hrender) in Hout by lia.
  injection Hout as <-.
  rewrite (format_field_rendered (VStr _) _ field_name' w eq_refl) by lia.
  pose proof (len_fitted rendered w Hw) as Hlen.
  replace (len _ >? w) with false
    by (symmetry; rewrite Z.gtb_ltb; apply Z.ltb_ge; lia).
  f_equal. apply padded_full. lia.
Qed.

End FormatFieldMore.

Lemma format_field_fits_witness :
  format_field json_dumps_refusing logger (VInt 42) "duration_ms" (Some 10)
    = Return ("42" ++ replicate (Z.to_nat (10 - len "42")) " ") /\
  len ("42" ++ replicate (Z.to_nat (10 - len "42")) " ") = 10 /\
  (len "42" = 10 ->
   format_field json_dumps_refusing logger (VInt 42) "duration_ms" (Some 10) = Return "42").
Proof.
  apply (format_field_fits json_dumps_refusing logger " "%char eq_refl
           (VInt 42) "42" "duration_ms" 10).
  - reflexivity.
  - lia.
  - vm_compute. discriminate.
Defined.

Lemma format_field_fixed_width_witness :
  exists out,
    format_field json_dumps_refusing logger (VInt 123456789012) "duration_ms" (Some 10)
      = Return out /\
    len out = 10 /\
    (10 < len "123456789012" ->
     out = substring 0 (Z.to_nat (10 - 3)) "123456789012" ++ "...").
Proof.
  apply (format_field_fixed_width json_dumps_refusing logger " "%char eq_refl
           (VInt 123456789012) "123456789012" "duration_ms" 10).
  - reflexivity.
  - lia.
Defined.

Lemma format_field_fallback_overflows_witness :
  exists out,
    format_field json_dumps_refusing logger (VObject (Raise (TypeError "bad"))) "model"
        (Some 15) = Return out /\
    out = "Error formatting " ++ "model" ++ ": " ++ exc_str (TypeError "bad") /\
    len out = 19 + len "model" + len (exc_str (TypeError "bad")) /\
    width_or (Some 15) (max_field_length logger) < len out.
Proof.
  apply (format_field_fallback_overflows json_dumps_refusing logger " "%char eq_refl
           (VObject (Raise (TypeError "bad"))) (TypeError "bad") "model" (Some 15)).
  - reflexivity.
  - vm_compute. reflexivity.
Defined.

Lemma format_field_negative_width_witness :
  exists out,
    format_field json_dumps_refusing logger (VStr "abcdefgh") "f" (Some (-1)) = Return out /\
    out = substring 0 (Z.to_nat (len "abcdefgh" + -1 - 3)) "abcdefgh" ++ "..." /\
    len out = Z.max 3 (len "abcdefgh" + -1).
Proof.
  apply (format_field_negative_width json_dumps_refusing logger " "%char eq_refl
           (VStr "abcdefgh") "abcdefgh" "f" (-1)).
  - reflexivity.
  - lia.
Defined.

Example format_field_width_minus_1 :
  format_field json_dumps_refusing logger (VStr "abcdefgh") "f" (Some (-1)) = Return "abcd...".
Proof. reflexivity. Qed.

Lemma format_field_idempotent_witness :
  format_field json_dumps_refusing logger (VStr "abc...") "g" (Some 6) = Return "abc...".
Proof.
  apply (format_field_idempotent json_dumps_refusing logger " "%char eq_refl
           (VStr "abcdefghij") "abcdefghij" "f" "g" "abc..." 6).
  - reflexivity.
  - lia.
  - reflexivity.
Defined.

(** ** More on [create_log_entry] *)

Lemma Return_inj {A : Type} (a b : A) : Return a = Return b -> a = b.
Proof. now intros [= ->]. Qed.

Lemma append_assoc (s t u : string) : (s ++ t) ++ u = s ++ t ++ u.
Proof. induction s as [|a s IH]; simpl; [reflexivity | now rewrite IH]. Qed.

Lemma len_join (sep a : string) (l : list string) :
  len (join sep (a :: l))
  = len a + fold_right (fun x acc => len sep + len x + acc) 0 l.
Proof.
  revert a. induction l as [|b l IH]; intro a.
  - simpl. lia.
  - change (join sep (a :: b :: l)) with (a ++ sep ++ join sep (b :: l)).
    rewrite !len_append, IH. simpl. lia.
Qed.

Lemma join_split (sep f : string) (l1 l2 : list string) :
  exists a b, join sep (l1 ++ f :: l2) = a ++ f ++ b.
Proof.
  induction l1 as [|x l1 IH].
  - destruct l2 as [|y l2].
    + exists "", "". simpl. now rewrite append_empty_r.
    + exists "", (sep ++ join sep (y :: l2)). reflexivity.
  - destruct IH as (a & b & IH).
    exists (x ++ sep ++ a), b.
    replace (join sep ((x :: l1) ++ f :: l2))
      with (x ++ sep ++ join sep (l1 ++ f :: l2))
      by (destruct l1; reflexivity).
    rewrite IH. now rewrite !append_assoc.
Qed.

(** Every width of the table is at least 3, so every width looked up is. *)
Lemma field_widths_at_least_3 (key : string) (default : Z) :
  3 <= default -> 3 <= dict_get field_widths key default.
Proof.
  intro H. unfold field_widths. cbn [dict_get].
  repeat match goal with
  | |- context [String.eqb ?k key] => destruct (String.eqb k key); [lia|]
  end.
  exact H.
Qed.

Section CreateLogEntryMore.

Variable json_dumps : PyValue -> PyResult string.
Variable self : LogFormatter.
Variable c : ascii.
Hypothesis pad_single : padding_char self = String c "".

(** The fields of items whose rendering returns have the widths looked up. *)
Lemma len_item_fields (log_data : dict PyValue) (rest : list string) :
  3 <= max_field_length self ->
  Forall (fun item => exists r, type_formats json_dumps (snd item) = Return r) log_data ->
  Forall2 (item_field json_dumps self) log_data rest ->
  fold_right (fun x acc => len " | " + len x + acc) 0 rest
  = fold_right
      (fun item acc => 3 + dict_get field_widths (fst item) (max_field_length self) + acc)
      0 log_data.
Proof.
  intros Hmax Hrender Hall.
  induction Hall as [|item field items fields Hfield _ IH]; [reflexivity|].
  inversion Hrender as [|? ? [r Hr] Hrender']; subst.
  cbn [fold_right]. rewrite (IH Hrender').
  unfold item_field in Hfield.
  pose proof (field_widths_at_least_3 (fst item) (max_field_length self) Hmax) as Hw.
  rewrite (format_field_rendered json_dumps self c pad_single _ r) in Hfield
    by (try exact Hr; lia).
  apply Return_inj in Hfield. subst field.
  rewrite (len_fitted c r _ Hw). reflexivity.
Qed.

(** The length of an entry whose values all render. *)
Lemma len_entry (env : Env) (log_data : dict PyValue) :
  3 <= max_field_length self ->
  Forall (fun item => exists r, type_formats json_dumps (snd item) = Return r) log_data ->
  exists entry,
    create_log_entry json_dumps self env log_data = Return entry /\
    len entry
    = 33 + fold_right
             (fun item acc =>
                3 + dict_get field_widths (fst item) (max_field_length self) + acc)
             0 log_data.
Proof.
  intros Hmax Hrender.
  destruct (create_log_entry_fields json_dumps self c pad_single env log_data)
    as (fields & Hentry & f0 & f1 & rest & -> & Hts & Hid & Hall).
  eexists. split; [exact Hentry|].
  rewrite len_join. cbn [fold_right].
  rewrite (len_item_fields log_data rest Hmax Hrender Hall).
  rewrite (format_field_text_width json_dumps self c _ _ f0 20 pad_single ltac:(lia) Hts).
  rewrite (format_field_text_width json_dumps self c _ _ f1 10 pad_single ltac:(lia) Hid).
  change (len " | ") with 3. lia.
Qed.

(** X6: when the rendering of every value returns (as it does for texts,
    integers, reals and booleans) and [max_field_length] is at least 3, the
    length of the entry is fixed by the names alone: 33 for the two leading
    fields and their separator, then 3 plus the width of its name for each
    item. *)
Theorem create_log_entry_length (env : Env) (log_data : dict PyValue) :
  3 <= max_field_length self ->
  Forall (fun item => exists r, type_formats json_dumps (snd item) = Return r) log_data ->
  exists entry,
    create_log_entry json_dumps self env log_data = Return entry /\
    len entry
    = 33 + fold_right
             (fun item acc =>
                3 + dict_get field_widths (fst item) (max_field_length self) + acc)
             0 log_data.
Proof. apply len_entry. Qed.

(** X7: the entry starts with the timestamp text, whole when it has at most
    20 characters, padded to 20; then the separator; then the first 8
    characters of the uuid text padded to 10. *)
Theorem create_log_entry_header (env : Env) (log_data : dict PyValue) :
  len (now_strftime env) <= 20 ->
  exists tail,
    create_log_entry json_dumps self env log_data
    = Return
        ((now_strftime env ++ replicate (Z.to_nat (20 - len (now_strftime env))) c)
         ++ " | "
         ++ (substring 0 8 (uuid4_str env)
             ++ replicate (Z.to_nat (10 - len (substring 0 8 (uuid4_str env)))) c)
         ++ tail).
Proof.
  intro Hts20.
  destruct (create_log_entry_fields json_dumps self c pad_single env log_data)
    as (fields & Hentry & f0 & f1 & rest & -> & Hts & Hid & _).
  rewrite (format_field_rendered json_dumps self c pad_single
             (VStr (now_strftime env)) (now_strftime env) _ 20 eq_refl) in Hts by lia.
  rewrite (format_field_rendered json_dumps self c pad_single
             (VStr (slice_to (uuid4_str env) 8)) (slice_to (uuid4_str env) 8) _ 10 eq_refl)
    in Hid by lia.
  replace (len (now_strftime env) >? 20) with false in Hts
    by (symmetry; rewrite Z.gtb_ltb; apply Z.ltb_ge; lia).
  assert (Hid8 : len (slice_to (uuid4_str env) 8) <= 8).
  { unfold slice_to. change (8 <? 0) with false. cbv iota.
    unfold len. rewrite length_substring0. lia. }
  replace (len (slice_to (uuid4_str env) 8) >? 10) with false in Hid
    by (symmetry; rewrite Z.gtb_ltb; apply Z.ltb_ge; lia).
  apply Return_inj in Hts, Hid. subst f0 f1.
  rewrite Hentry.
  exists (match rest with [] => "" | _ => " | " ++ join " | " rest end).
  f_equal. unfold padded, slice_to. change (8 <? 0) with false. cbv iota.
  change (Z.to_nat 8) with 8%nat.
  destruct rest as [|f2 rest].
  - cbn [join String.concat]. now rewrite append_empty_r.
  - cbn [join String.concat]. reflexivity.
Qed.

(** A fitting text value is a part of the entry. *)
Lemma entry_contains_text
    (env : Env) (log_data : dict PyValue) (key text : string) :
  In (key, VStr text) log_data ->
  len text <= dict_get field_widths key (max_field_length self) ->
  exists entry before after,
    create_log_entry json_dumps self env log_data = Return entry /\
    entry = before ++ text ++ after.
Proof.
  intros Hin Hfit.
  destruct (create_log_entry_fields json_dumps self c pad_single env log_data)
    as (fields & Hentry & f0 & f1 & rest & -> & _ & _ & Hall).
  destruct (in_split _ _ Hin) as (l1 & l2 & ->).
  apply Forall2_app_inv_l in Hall.
  destruct Hall as (r1 & r2 & _ & Hr2 & ->).
  inversion Hr2 as [|? field ? r3 Hfield _]; subst.
  unfold item_field in Hfield. cbn [fst snd] in Hfield.
  rewrite (format_field_padded json_dumps self c pad_single) in Hfield.
  cbv zeta in Hfield. simpl type_formats in Hfield. cbv iota beta in Hfield.
  apply Return_inj in Hfield. subst field.
  set (w := dict_get field_widths key (max_field_length self)) in *.
  assert (Hw : len text <= width_or (Some w) (max_field_length self)).
  { assert (Hzero : w = 0 -> max_field_length self = 0).
    { subst w. unfold field_widths. cbn [dict_get].
      repeat match goal with
      | |- context [String.eqb ?k key] => destruct (String.eqb k key); [lia|]
      end.
      lia. }
    unfold width_or. destruct (Z.eqb_spec w 0) as [H0|_]; [|exact Hfit].
    specialize (Hzero H0). lia. }
  replace (len text >? width_or (Some w) (max_field_length self)) with false in Hentry
    by (symmetry; rewrite Z.gtb_ltb; apply Z.ltb_ge; lia).
  destruct (join_split " | " (padded c (width_or (Some w) (max_field_length self)) text)
              (f0 :: f1 :: r1) r3) as (a & b & Hjoin).
  eexists _, a,
    (replicate (Z.to_nat (width_or (Some w) (max_field_length self) - len text)) c ++ b).
  split; [exact Hentry|].
  cbn [app] in Hjoin. rewrite Hjoin. unfold padded. now rewrite !append_assoc.
Qed.

(** X8: a text value that fits the width of its name goes into the entry as
    it is, whatever characters it holds: nothing is escaped or removed. *)
Theorem create_log_entry_verbatim
    (env : Env) (log_data : dict PyValue) (key text : string) :
  In (key, VStr text) log_data ->
  len text <= dict_get field_widths key (max_field_length self) ->
  exists entry before after,
    create_log_entry json_dumps self env log_data = Return entry /\
    entry = before ++ text ++ after.
Proof. apply entry_contains_text. Qed.

End CreateLogEntryMore.

Lemma create_log_entry_length_witness :
  exists entry,
    create_log_entry json_dumps_refusing logger
        (mkEnv "2024-01-01 10:00:00" "1b4e28ba-2fa1-11d2-883f-0016d3cca427")
        sample_log_data = Return entry /\
    len entry
    = 33 + fold_right
             (fun item acc =>
                3 + dict_get field_widths (fst item) (max_field_length logger) + acc)
             0 sample_log_data.
Proof.
  apply (create_log_entry_length json_dumps_refusing logger " "%char eq_refl).
  - vm_compute. discriminate.
  - repeat constructor; eexists; reflexivity.
Defined.

Lemma create_log_entry_header_witness :
  exists tail,
    create_log_entry json_dumps_refusing logger
        (mkEnv "2024-01-01 10:00:00" "1b4e28ba-2fa1-11d2-883f-0016d3cca427")
        sample_log_data
    = Return
        (("2024-01-01 10:00:00"
          ++ replicate (Z.to_nat (20 - len "2024-01-01 10:00:00")) " ")
         ++ " | "
         ++ (substring 0 8 "1b4e28ba-2fa1-11d2-883f-0016d3cca427"
             ++ replicate
                  (Z.to_nat
                     (10 - len (substring 0 8 "1b4e28ba-2fa1-11d2-883f-0016d3cca427")))
                  " ")
         ++ tail).
Proof.
  apply (create_log_entry_header json_dumps_refusing logger " "%char eq_refl
           (mkEnv "2024-01-01 10:00:00" "1b4e28ba-2fa1-11d2-883f-0016d3cca427")
           sample_log_data).
  vm_compute. discriminate.
Defined.

Lemma create_log_entry_verbatim_witness :
  exists entry before after,
    create_log_entry json_dumps_refusing logger
        (mkEnv "2024-01-01 10:00:00" "1b4e28ba-2fa1-11d2-883f-0016d3cca427")
        [("user_input", VStr "a | b"); ("model", VStr "x")] = Return entry /\
    entry = before ++ "a | b" ++ after.
Proof.
  apply (create_log_entry_verbatim json_dumps_refusing logger " "%char eq_refl
           (mkEnv "2024-01-01 10:00:00" "1b4e28ba-2fa1-11d2-883f-0016d3cca427")
           [("user_input", VStr "a | b"); ("model", VStr "x")] "user_input" "a | b").
  - left. reflexivity.
  - vm_compute. discriminate.
Defined.

(** ** The format [.2f] *)

Lemma round_half_even_nearest (num den : Z) :
  0 < den -> 2 * Z.abs (round_half_even num den * den - num) <= den.
Proof.
  intro Hden. unfold round_half_even.
  pose proof (Z.div_mod num den ltac:(lia)) as Hdm.
  pose proof (Z.mod_pos_bound num den Hden) as Hr.
  set (q := num / den) in *. set (r := num mod den) in *.
  destruct (2 * r <? den) eqn:E1; [apply Z.ltb_lt in E1; nia|].
  apply Z.ltb_ge in E1.
  destruct (den <? 2 * r) eqn:E2; [apply Z.ltb_lt in E2; nia|].
  apply Z.ltb_ge in E2.
  destruct (Z.even q); nia.
Qed.

Lemma two_digits_length (n : Z) :
  0 <= n < 100 -> String.length (two_digits n) = 2%nat.
Proof.
  intro Hn.
  assert (Hall : forallb (fun k => Nat.eqb (String.length (two_digits (Z.of_nat k))) 2)
                         (seq 0 100) = true) by (vm_compute; reflexivity).
  rewrite forallb_forall in Hall.
  specialize (Hall (Z.to_nat n)).
  rewrite Z2Nat.id in Hall by lia.
  apply Nat.eqb_eq, Hall, in_seq. lia.
Qed.

(** X9: a finite real is rendered as its sign, the decimal integer part, a
    point and exactly two more characters; the hundredths shown are the
    value rounded to the nearest hundredth: exact for an integer value, and
    otherwise at most half a hundredth away. *)
Theorem format_2f_two_decimals (s : bool) (m : positive) (e : Z) :
  exists whole fraction,
    format_2f (S754_finite s m e)
      = (if s then "-" else "") ++ format_d whole ++ "." ++ fraction /\
    String.length fraction = 2%nat /\
    0 <= whole /\
    fraction = two_digits (hundredths m e - 100 * whole) /\
    (0 <= e -> hundredths m e = Z.pos m * 2 ^ e * 100) /\
    (e < 0 ->
     2 * Z.abs (hundredths m e * 2 ^ (- e) - Z.pos m * 100) <= 2 ^ (- e)).
Proof.
  assert (Hh : 0 <= hundredths m e).
  { unfold hundredths. destruct (0 <=? e) eqn:E.
    - apply Z.leb_le in E. pose proof (Z.pow_nonneg 2 e ltac:(lia)). nia.
    - apply Z.leb_gt in E.
      pose proof (Z.pow_pos_nonneg 2 (- e) ltac:(lia) ltac:(lia)) as Hden.
      unfold round_half_even.
      pose proof (Z.div_pos (Z.pos m * 100) (2 ^ (- e)) ltac:(lia) Hden).
      destruct (_ <? _); [lia|]. destruct (_ <? _); [lia|]. destruct (Z.even _); lia. }
  exists (hundredths m e / 100), (two_digits (hundredths m e mod 100)).
  split; [reflexivity|].
  split; [apply two_digits_length, Z.mod_pos_bound; lia|].
  split; [apply Z.div_pos; lia|].
  split; [f_equal; rewrite Z.mod_eq by lia; lia|].
  split.
  - intro He. unfold hundredths.
    now replace (0 <=? e) with true by (symmetry; apply Z.leb_le; lia).
  - intro He. unfold hundredths.
    replace (0 <=? e) with false by (symmetry; apply Z.leb_gt; lia).
    apply round_half_even_nearest. apply Z.pow_pos_nonneg; lia.
Qed.

(** ** The script: one run *)

Section ScriptFacts.

Variable json_dumps : PyValue -> PyResult string.

(** The module's [logger] pads with one space, so its entries are always made. *)
Lemma create_log_entry_logger (env : Env) (log_data : dict PyValue) :
  exists entry, create_log_entry json_dumps logger env log_data = Return entry.
Proof.
  destruct (create_log_entry_fields json_dumps logger " "%char eq_refl env log_data)
    as (fields & Hentry & _).
  eexists. exact Hentry.
Qed.

Lemma write_log_entry_appends (t : Turn) (response_value duration_value : PyValue)
    (w : World) :
  exists entry,
    create_log_entry json_dumps logger (turn_env t)
      (turn_log_data t response_value duration_value) = Return entry /\
    write_log_entry json_dumps t response_value duration_value w
    = (mkWorld (session_messages w) (Some (content_of w ++ entry ++ newline)) (page w),
       Return tt).
Proof.
  destruct (create_log_entry_logger (turn_env t)
              (turn_log_data t response_value duration_value)) as [entry Hentry].
  exists entry. split; [exact Hentry|].
  unfold write_log_entry, then_, lift. fold (turn_log_data t response_value duration_value).
  rewrite Hentry. reflexivity.
Qed.

Lemma handle_submission_handled (t : Turn) (w : World) (messages : list Message) :
  session_messages w = Some messages ->
  exists w',
    handle_submission json_dumps t w = (w', Return tt) /\
    handled json_dumps t w messages w'.
Proof.
  intro Hsession. unfold handle_submission.
  destruct (submit_button t) eqn:Hsubmit; cbn [andb];
    [|exists w; split; [reflexivity | constructor; now left]].
  destruct (String.eqb_spec (user_input t) "") as [Hempty|Hinput]; cbn [negb];
    [exists w; split; [reflexivity | constructor; now right]|].
  unfold try_script, then_ at 1, append_message at 1. rewrite Hsession.
  unfold then_ at 1, lift at 1.
  destruct (chat t) as [response|e] eqn:Hchat.
  - fold (assistant_response_of response).
    unfold then_ at 1, append_message. cbn [session_messages chat_logs page].
    match goal with
    | |- context [write_log_entry json_dumps t ?r ?d ?w0] =>
        destruct (write_log_entry_appends t r d w0) as (entry & Hentry & Hwrite)
    end.
    rewrite Hwrite. cbn [session_messages chat_logs page].
    eexists. split; [reflexivity|].
    rewrite <- app_assoc. cbn [app].
    unfold content_of at 1. cbn [chat_logs]. fold (content_of w).
    now apply handled_answer.
  - unfold then_ at 1, show at 1. cbn [session_messages chat_logs page].
    match goal with
    | |- context [write_log_entry json_dumps t ?r ?d ?w0] =>
        destruct (write_log_entry_appends t r d w0) as (entry & Hentry & Hwrite)
    end.
    rewrite Hwrite. cbn [session_messages chat_logs page].
    eexists. split; [reflexivity|].
    unfold content_of at 1. cbn [chat_logs]. fold (content_of w).
    now apply handled_error.
Qed.

End ScriptFacts.

Lemma dict_get_absent {V : Type} (d : dict V) (key : string) (default : V) :
  ~ In key (map fst d) -> dict_get d key default = default.
Proof.
  induction d as [|[k v] d IH]; intro Hnot; [reflexivity|].
  simpl in *. destruct (String.eqb_spec k key) as [Heq|_]; [tauto|].
  apply IH. tauto.
Qed.

Lemma length_last_n {A : Type} (n : nat) (l : list A) :
  (List.length (last_n n l) <= n)%nat.
Proof. unfold last_n. rewrite length_skipn. lia. Qed.

Lemma length_recent_logs_of (logs : option string) :
  (1 <= List.length (recent_logs_of logs) <= 5)%nat \/
  (exists content, logs = Some content /\ readlines content = []).
Proof.
  destruct logs as [content|]; [|left; simpl; lia].
  unfold recent_logs_of. rewrite length_map.
  pose proof (length_last_n 5 (readlines content)) as Hle.
  destruct (readlines content) as [|l ls] eqn:E; [right; now exists content|].
  left. split; [|exact Hle].
  unfold last_n. rewrite length_skipn. cbn [List.length]. lia.
Qed.

Section RunFacts.

Variable json_dumps : PyValue -> PyResult string.

(** A run is the handler followed by the two sections of the page. *)
Lemma run_handled (t : Turn) (w : World) :
  exists w' messages',
    handled json_dumps t (start w) (messages_of w) w' /\
    session_messages w' = Some messages' /\
    run json_dumps t w
    = (mkWorld (Some messages') (chat_logs w')
         (page w'
          ++ StSubheader "Chat History"
          :: map (fun msg => StChatMessage (role msg) (content msg)) messages'
          ++ StSubheader "Recent Logs" :: recent_logs_of (chat_logs w'))%list,
       Return tt).
Proof.
  destruct (handle_submission_handled json_dumps t (start w) (messages_of w) eq_refl)
    as (w' & Hhandle & Hhandled).
  assert (Hmessages : exists messages', session_messages w' = Some messages').
  { destruct Hhandled; simpl; eauto. }
  destruct Hmessages as [messages' Hmessages].
  exists w', messages'. split; [exact Hhandled|]. split; [exact Hmessages|].
  unfold run.
  assert (Hprelude :
    forall k : Script unit,
      (show (StTitle "DeepSeek R1:1.5B Chatbot") >>
       show (StWrite
         "Interact with the DeepSeek R1 model via Ollama, with structured logging.") >>
       init_messages >>
       show (StForm "chat_form" "Your message:" "Send") >> k)
        (mkWorld (session_messages w) (chat_logs w) [])
      = k (start w)).
  { intro k. unfold then_, show, init_messages, start, messages_of.
    cbn [session_messages chat_logs page app].
    destruct (session_messages w); reflexivity. }
  rewrite Hprelude.
  unfold then_ at 1. rewrite Hhandle.
  unfold then_, show, show_messages, show_recent_logs.
  cbn [session_messages chat_logs page]. rewrite Hmessages.
  cbn [session_messages chat_logs page].
  destruct (chat_logs w') as [content|]; unfold recent_logs_of, show;
    cbn [session_messages chat_logs page];
    repeat rewrite <- app_assoc; reflexivity.
Qed.

(** X10: a run never raises: an error of the model call is caught, shown and
    logged, and the formatter makes an entry in every case. *)
Theorem run_never_raises (t : Turn) (w : World) :
  snd (run json_dumps t w) = Return tt.
Proof.
  destruct (run_handled t w) as (w' & messages' & _ & _ & Hrun).
  now rewrite Hrun.
Qed.

(** X11: with the button not pressed, or with an empty message, a run writes
    nothing to the file and adds no message. *)
Theorem run_idle (t : Turn) (w : World) :
  submit_button t = false \/ user_input t = "" ->
  session_messages (fst (run json_dumps t w)) = Some (messages_of w) /\
  chat_logs (fst (run json_dumps t w)) = chat_logs w.
Proof.
  intro Hidle.
  destruct (run_handled t w) as (w' & messages' & Hhandled & Hmessages & Hrun).
  rewrite Hrun. cbn [fst session_messages chat_logs].
  destruct Hhandled as [_ | response entry Hs Hi _ _ | e entry Hs Hi _ _];
    [| destruct Hidle; congruence | destruct Hidle; congruence].
  split; [rewrite <- Hmessages|]; reflexivity.
Qed.

(** X12: a submitted turn the model answers adds the user's message and then
    the assistant's to the session, appends one entry and a line end to the
    file, and shows no error; the assistant's message is the content of the
    response, or "No response received" when the response has no message. *)
Theorem run_answer (t : Turn) (w : World) (response : Response) :
  submit_button t = true ->
  user_input t <> "" ->
  chat t = Return response ->
  exists entry,
    create_log_entry json_dumps logger (turn_env t)
      [ ("user_input", VStr (user_input t));
        ("response", assistant_response_of response);
        ("model", VStr "deepseek:1.5b");
        ("duration_ms", VInt (duration_ms t)) ] = Return entry /\
    session_messages (fst (run json_dumps t w))
      = Some (messages_of w
              ++ [mkMessage "user" (VStr (user_input t));
                  mkMessage "assistant" (assistant_response_of response)])%list /\
    chat_logs (fst (run json_dumps t w)) = Some (content_of w ++ entry ++ newline) /\
    (forall text, ~ In (StError text) (page (fst (run json_dumps t w)))) /\
    (~ In "message" (map fst response) ->
     assistant_response_of response = VStr "No response received") /\
    (forall message,
       dict_get response "message" [] = message ->
       ~ In "content" (map fst message) ->
       assistant_response_of response = VStr "No response received").
Proof.
  intros Hsubmit Hinput Hchat.
  destruct (run_handled t w) as (w' & messages' & Hhandled & Hmessages & Hrun).
  rewrite Hrun. cbn [fst session_messages chat_logs page].
  destruct Hhandled as [Hidle | response' entry _ _ Hchat' Hentry | e entry _ _ Hchat' _];
    [destruct Hidle; congruence | | congruence].
  assert (response' = response) by congruence. subst response'.
  cbn [session_messages chat_logs page] in *.
  exists entry. split; [exact Hentry|].
  split; [congruence|]. split; [reflexivity|]. split; [|split].
  - intros text Hin. cbn [start page app] in Hin.
    repeat (destruct Hin as [Hin|Hin]; [discriminate Hin|]).
    apply in_app_or in Hin. destruct Hin as [Hin|Hin].
    + apply in_map_iff in Hin. destruct Hin as (msg & Hmsg & _). discriminate Hmsg.
    + destruct Hin as [Hin|Hin]; [discriminate Hin|].
      apply in_map_iff in Hin. destruct Hin as (log & Hlog & _). discriminate Hlog.
  - intro Hnot. unfold assistant_response_of.
    now rewrite (dict_get_absent response "message" [] Hnot).
  - intros message <- Hnot. unfold assistant_response_of.
    now apply dict_get_absent.
Qed.

(** X13: a submitted turn whose model call raises [e] leaves the user's
    message in the session with no answer, shows "Error: <str(e)>", and
    appends one entry whose response is that text and whose duration is 0. *)
Theorem run_error (t : Turn) (w : World) (e : PyExc) :
  submit_button t = true ->
  user_input t <> "" ->
  chat t = Raise e ->
  exists entry,
    create_log_entry json_dumps logger (turn_env t)
      [ ("user_input", VStr (user_input t));
        ("response", VStr ("Error: " ++ exc_str e));
        ("model", VStr "deepseek:1.5b");
        ("duration_ms", VInt 0) ] = Return entry /\
    session_messages (fst (run json_dumps t w))
      = Some (messages_of w ++ [mkMessage "user" (VStr (user_input t))])%list /\
    chat_logs (fst (run json_dumps t w)) = Some (content_of w ++ entry ++ newline) /\
    In (StError ("Error: " ++ exc_str e)) (page (fst (run json_dumps t w))).
Proof.
  intros Hsubmit Hinput Hchat.
  destruct (run_handled t w) as (w' & messages' & Hhandled & Hmessages & Hrun).
  rewrite Hrun. cbn [fst session_messages chat_logs page].
  destruct Hhandled as [Hidle | response entry _ _ Hchat' _ | e' entry _ _ Hchat' Hentry];
    [destruct Hidle; congruence | congruence |].
  assert (e' = e) by congruence. subst e'.
  cbn [session_messages chat_logs page] in *.
  exists entry. split; [exact Hentry|].
  split; [congruence|]. split; [reflexivity|].
  cbn [start page app]. right. right. right. left. reflexivity.
Qed.

End RunFacts.

(** ** The script: the file and the page over runs *)

Section LogFileFacts.

Variable json_dumps : PyValue -> PyResult string.

(** X14: every entry a turn appends is 200 characters wide, whenever the
    rendering of the logged response returns: always when the model call
    raises, and on an answer whose content is a text, a number or a boolean. *)
Theorem run_record_width (t : Turn) (w : World) :
  submit_button t = true ->
  user_input t <> "" ->
  (forall response,
     chat t = Return response ->
     exists r, type_formats json_dumps (assistant_response_of response) = Return r) ->
  exists entry,
    chat_logs (fst (run json_dumps t w)) = Some (content_of w ++ entry ++ newline) /\
    len entry = 200.
Proof.
  intros Hsubmit Hinput Hrender.
  destruct (run_handled json_dumps t w) as (w' & messages' & Hhandled & _ & Hrun).
  rewrite Hrun. cbn [fst chat_logs].
  destruct Hhandled as [Hidle | response entry _ _ Hchat Hentry | e entry _ _ Hchat Hentry];
    [destruct Hidle; congruence | |];
    cbn [chat_logs]; exists entry; (split; [reflexivity|]).
  - destruct (len_entry json_dumps logger " "%char eq_refl (turn_env t)
                (turn_log_data t (assistant_response_of response) (VInt (duration_ms t))))
      as (entry' & Hentry' & Hlen).
    + vm_compute. discriminate.
    + repeat constructor; cbn [snd]; try (eexists; reflexivity).
      exact (Hrender response Hchat).
    + rewrite Hentry in Hentry'. apply Return_inj in Hentry'. subst entry'.
      rewrite Hlen. reflexivity.
  - destruct (len_entry json_dumps logger " "%char eq_refl (turn_env t)
                (turn_log_data t (VStr ("Error: " ++ exc_str e)) (VInt 0)))
      as (entry' & Hentry' & Hlen).
    + vm_compute. discriminate.
    + repeat constructor; cbn [snd]; eexists; reflexivity.
    + rewrite Hentry in Hentry'. apply Return_inj in Hentry'. subst entry'.
      rewrite Hlen. reflexivity.
Qed.

(** What one run adds to the file and to the session. *)
Lemma run_extends (t : Turn) (w : World) :
  exists more_text more_messages,
    content_of (fst (run json_dumps t w)) = content_of w ++ more_text /\
    messages_of (fst (run json_dumps t w)) = (messages_of w ++ more_messages)%list /\
    (more_text = "" \/ exists s, more_text = s ++ newline).
Proof.
  destruct (run_handled json_dumps t w) as (w' & messages' & Hhandled & Hmessages & Hrun).
  rewrite Hrun. unfold content_of at 1, messages_of at 1.
  cbn [fst chat_logs session_messages].
  destruct Hhandled as [_ | response entry _ _ _ _ | e entry _ _ _ _];
    unfold start in *; cbn [chat_logs session_messages] in *.
  - exists "", []. rewrite append_empty_r, app_nil_r.
    split; [reflexivity|]. split; [congruence | now left].
  - exists (entry ++ newline). eexists.
    split; [reflexivity|]. split; [injection Hmessages as <-; reflexivity|].
    right. now exists entry.
  - exists (entry ++ newline). eexists.
    split; [reflexivity|]. split; [injection Hmessages as <-; reflexivity|].
    right. now exists entry.
Qed.

(** X15: over any sequence of runs the file and the session only grow: what
    they held stays at their start, and what was added to the file is
    nothing or ends with a line end. *)
Theorem run_all_append_only (turns : list Turn) (w : World) :
  exists more_text more_messages,
    content_of (run_all json_dumps turns w) = content_of w ++ more_text /\
    messages_of (run_all json_dumps turns w) = (messages_of w ++ more_messages)%list /\
    (more_text = "" \/ exists s, more_text = s ++ newline).
Proof.
  revert w. induction turns as [|t turns IH]; intro w.
  - exists "", []. cbn [run_all]. rewrite append_empty_r, app_nil_r. auto.
  - cbn [run_all].
    destruct (run_extends t w) as (text1 & messages1 & Hc1 & Hm1 & Hend1).
    destruct (IH (fst (run json_dumps t w))) as (text2 & messages2 & Hc2 & Hm2 & Hend2).
    exists (text1 ++ text2), (messages1 ++ messages2)%list.
    split; [rewrite Hc2, Hc1; apply append_assoc|].
    split; [rewrite Hm2, Hm1; symmetry; apply app_assoc|].
    destruct Hend2 as [->|[s ->]].
    + rewrite append_empty_r. exact Hend1.
    + right. exists (text1 ++ s). now rewrite append_assoc.
Qed.

(** X16: the page of a run ends with the section "Recent Logs": at most five
    lines, the last of the file as the run leaves it, each stripped; the note
    "No logs available yet." is shown exactly when there was no file and the
    run wrote none. *)
Theorem run_recent_logs (t : Turn) (w : World) :
  exists before shown,
    page (fst (run json_dumps t w)) = (before ++ StSubheader "Recent Logs" :: shown)%list /\
    (List.length shown <= 5)%nat /\
    (forall content,
       chat_logs (fst (run json_dumps t w)) = Some content ->
       shown = map (fun log => StText (strip log)) (last_n 5 (readlines content))) /\
    (shown = [StWrite "No logs available yet."] <->
     chat_logs w = None /\ (submit_button t = false \/ user_input t = "")).
Proof.
  destruct (run_handled json_dumps t w) as (w' & messages' & Hhandled & _ & Hrun).
  rewrite Hrun. cbn [fst page chat_logs].
  eexists (page w' ++ StSubheader "Chat History" :: map _ messages')%list,
          (recent_logs_of (chat_logs w')).
  split; [now rewrite <- app_assoc|].
  split.
  { destruct (chat_logs w') as [content|]; [|simpl; lia].
    unfold recent_logs_of. rewrite length_map. apply length_last_n. }
  split.
  { intros content ->. reflexivity. }
  assert (Hfile : forall content,
            recent_logs_of (Some content) <> [StWrite "No logs available yet."]).
  { intros content H. unfold recent_logs_of in H.
    destruct (last_n 5 (readlines content)); discriminate H. }
  destruct Hhandled as [Hidle | response entry Hs Hi _ _ | e entry Hs Hi _ _];
    unfold start; cbn [chat_logs].
  - destruct (chat_logs w) as [content|].
    + split; [intro H; now apply Hfile in H | intros [H _]; discriminate H].
    + split; [intros _; now split | reflexivity].
  - split; [intro H; now apply Hfile in H|].
    intros [_ [H|H]]; congruence.
  - split; [intro H; now apply Hfile in H|].
    intros [_ [H|H]]; congruence.
Qed.

End LogFileFacts.

(** ** Lines: what is written and what is read back *)

Section LineFacts.

Lemma no_line_end_append (s t : string) :
  no_line_end (s ++ t) = (no_line_end s && no_line_end t)%bool.
Proof.
  induction s as [|a s IH]; simpl; [reflexivity|].
  rewrite IH. now rewrite !andb_assoc.
Qed.

Lemma no_line_end_substring0 (n : nat) (s : string) :
  no_line_end s = true -> no_line_end (substring 0 n s) = true.
Proof.
  revert n. induction s as [|a s IH]; intros [|n] H; simpl in *; try reflexivity.
  apply andb_prop in H. destruct H as [Ha Hs].
  rewrite Ha. now apply IH.
Qed.

Lemma no_line_end_spaces (n : nat) : no_line_end (replicate n " ") = true.
Proof. induction n as [|n IH]; simpl; [reflexivity | exact IH]. Qed.

Lemma no_line_end_join (sep : string) (l : list string) :
  no_line_end sep = true ->
  Forall (fun x => no_line_end x = true) l ->
  no_line_end (join sep l) = true.
Proof.
  intros Hsep Hall. induction Hall as [|x l Hx Hall IH]; [reflexivity|].
  destruct l as [|y l]; [exact Hx|].
  change (join sep (x :: y :: l)) with (x ++ sep ++ join sep (y :: l)).
  rewrite !no_line_end_append, Hx, Hsep, IH. reflexivity.
Qed.

Lemma no_line_end_uint (d : Decimal.uint) :
  no_line_end (NilEmpty.string_of_uint d) = true.
Proof. induction d; simpl; auto. Qed.

Lemma no_line_end_format_d (n : Z) : no_line_end (format_d n) = true.
Proof.
  unfold format_d, NilZero.string_of_int, NilZero.string_of_uint.
  destruct (Z.to_int n) as [d|d]; destruct d; try reflexivity;
    simpl; apply no_line_end_uint.
Qed.

Lemma readlines_nonempty (c : ascii) (s : string) : readlines (String c s) <> [].
Proof.
  simpl. destruct (Ascii.eqb c LF); [discriminate|].
  destruct (Ascii.eqb c CR).
  - destruct s as [|c' s']; [discriminate|]. destruct (Ascii.eqb c' LF); discriminate.
  - destruct (readlines s); discriminate.
Qed.

(** A text with no line end, then a line end, is read as one line. *)
Lemma readlines_line (line : string) :
  no_line_end line = true -> readlines (line ++ newline) = [line ++ newline].
Proof.
  induction line as [|a line IH]; intro H; [reflexivity|].
  simpl in H. apply andb_prop in H. destruct H as [Ha Hline].
  apply andb_prop in Ha. destruct Ha as [Hlf Hcr].
  apply negb_true_iff in Hlf, Hcr.
  change ((String a line) ++ newline) with (String a (line ++ newline)).
  cbn [readlines]. rewrite Hlf, Hcr, (IH Hline). reflexivity.
Qed.

(** After a line end a new line starts, whatever came before. *)
Lemma readlines_after_newline (s t : string) :
  readlines ((s ++ newline) ++ t) = (readlines (s ++ newline) ++ readlines t)%list.
Proof.
  remember (String.length s) as n eqn:Hn.
  assert (Hle : (String.length s <= n)%nat) by lia. clear Hn.
  revert s Hle. induction n as [|n IH]; intros s Hle.
  - destruct s; [reflexivity | simpl in Hle; lia].
  - destruct s as [|a s]; [reflexivity|].
    simpl in Hle.
    change ((String a s ++ newline) ++ t) with (String a ((s ++ newline) ++ t)).
    change (String a s ++ newline) with (String a (s ++ newline)).
    cbn [readlines].
    destruct (Ascii.eqb a LF); [rewrite IH by lia; reflexivity|].
    destruct (Ascii.eqb a CR).
    + destruct s as [|b s]; [reflexivity|].
      simpl in Hle.
      change ((String b s ++ newline) ++ t) with (String b ((s ++ newline) ++ t)).
      change (String b s ++ newline) with (String b (s ++ newline)).
      cbv iota.
      destruct (Ascii.eqb b LF).
      * rewrite IH by lia. reflexivity.
      * change (String b ((s ++ newline) ++ t)) with ((String b s ++ newline) ++ t).
        change (String b (s ++ newline)) with (String b s ++ newline).
        rewrite IH by (simpl; lia). reflexivity.
    + rewrite IH by lia.
      destruct (readlines (s ++ newline)) as [|l ls] eqn:E; [|reflexivity].
      exfalso. destruct s; simpl in E; [discriminate|].
      revert E. apply readlines_nonempty.
Qed.

(** Appending a line to a file that is empty or ends with a line end adds
    that line to the lines read, and changes none. *)
Lemma readlines_appended (content line : string) :
  content = "" \/ (exists s, content = s ++ newline) ->
  no_line_end line = true ->
  readlines (content ++ line ++ newline)
  = (readlines content ++ [(line ++ newline)%string])%list.
Proof.
  intros [->|[s ->]] Hline.
  - simpl. now apply readlines_line.
  - rewrite readlines_after_newline. now rewrite (readlines_line line Hline).
Qed.

Lemma last_n_snoc {A : Type} (l : list A) (x : A) :
  last_n 5 (l ++ [x]) = (last_n 4 l ++ [x])%list.
Proof.
  unfold last_n. rewrite length_app. cbn [List.length].
  rewrite skipn_app.
  replace (List.length l + 1 - 5)%nat with (List.length l - 4)%nat by lia.
  replace (List.length l - 4 - List.length l)%nat with 0%nat by lia.
  reflexivity.
Qed.

Lemma rstrip_newline (s : string) : rstrip (s ++ newline) = rstrip s.
Proof.
  induction s as [|a s IH]; [reflexivity|].
  change (String a s ++ newline) with (String a (s ++ newline)).
  cbn [rstrip]. now rewrite IH.
Qed.

Lemma lstrip_append (s t : string) :
  lstrip (s ++ t) = if String.eqb (lstrip s) "" then lstrip t else lstrip s ++ t.
Proof.
  induction s as [|a s IH]; [reflexivity|].
  change (String a s ++ t) with (String a (s ++ t)).
  cbn [lstrip]. destruct (is_space a); [exact IH | reflexivity].
Qed.

(** The line end [readlines] keeps is stripped with the rest. *)
Lemma strip_newline (s : string) : strip (s ++ newline) = strip s.
Proof.
  unfold strip. rewrite lstrip_append.
  destruct (String.eqb_spec (lstrip s) "") as [->|_]; [reflexivity|].
  apply rstrip_newline.
Qed.

End LineFacts.

(** ** The entry just written is the last line shown *)

Lemma no_line_end_fitted (r : string) (w : Z) :
  no_line_end r = true ->
  no_line_end (padded " " w (if len r >? w then slice_to r (w - 3) ++ "..." else r))
  = true.
Proof.
  intro Hr. unfold padded. rewrite no_line_end_append, no_line_end_spaces, andb_true_r.
  destruct (len r >? w); [|exact Hr].
  rewrite no_line_end_append, andb_true_r. unfold slice_to.
  destruct (w - 3 <? 0); now apply no_line_end_substring0.
Qed.

Section EntryLines.

Variable json_dumps : PyValue -> PyResult string.

(** An entry of [logger] made of texts with no line end has none. *)
Lemma entry_no_line_end (env : Env) (log_data : dict PyValue) (entry : string) :
  create_log_entry json_dumps logger env log_data = Return entry ->
  no_line_end (now_strftime env) = true ->
  no_line_end (uuid4_str env) = true ->
  Forall (fun item =>
            exists r, type_formats json_dumps (snd item) = Return r /\
                      no_line_end r = true) log_data ->
  no_line_end entry = true.
Proof.
  intros Hentry Hnow Huuid Hitems.
  destruct (create_log_entry_fields json_dumps logger " "%char eq_refl env log_data)
    as (fields & Hentry' & f0 & f1 & rest & -> & Hts & Hid & Hall).
  rewrite Hentry in Hentry'. apply Return_inj in Hentry'. subst entry.
  apply no_line_end_join; [reflexivity|].
  rewrite (format_field_rendered json_dumps logger " "%char eq_refl
             (VStr (now_strftime env)) (now_strftime env) _ 20 eq_refl) in Hts by lia.
  rewrite (format_field_rendered json_dumps logger " "%char eq_refl
             (VStr (slice_to (uuid4_str env) 8)) (slice_to (uuid4_str env) 8) _ 10 eq_refl)
    in Hid by lia.
  apply Return_inj in Hts, Hid. subst f0 f1.
  constructor; [now apply no_line_end_fitted|].
  constructor.
  { apply no_line_end_fitted. unfold slice_to. change (8 <? 0) with false. cbv iota.
    now apply no_line_end_substring0. }
  clear Hentry. induction Hall as [|item field items fields Hfield _ IH]; [constructor|].
  inversion Hitems as [|? ? (r & Hr & Hfree) Hitems']; subst.
  constructor; [|exact (IH Hitems')].
  unfold item_field in Hfield.
  pose proof (field_widths_at_least_3 (fst item) (max_field_length logger)
                ltac:(vm_compute; discriminate)) as Hw.
  rewrite (format_field_rendered json_dumps logger " "%char eq_refl _ r _ _ Hr)
    in Hfield by lia.
  apply Return_inj in Hfield. subst field.
  now apply no_line_end_fitted.
Qed.

(** X17: what a turn writes is read back in the same run. When the file is
    empty or ends with a line end, and the timestamp, the uuid, the user's
    text and the rendered response hold no line end, the entry is one more
    line of the file, and "Recent Logs" ends with it, stripped, after the
    four lines that were last before. *)
Theorem run_shows_new_entry (t : Turn) (w : World) (r : string) :
  submit_button t = true ->
  user_input t <> "" ->
  content_of w = "" \/ (exists s, content_of w = s ++ newline) ->
  no_line_end (now_strftime (turn_env t)) = true ->
  no_line_end (uuid4_str (turn_env t)) = true ->
  no_line_end (user_input t) = true ->
  type_formats json_dumps (logged_response t) = Return r ->
  no_line_end r = true ->
  exists entry before,
    chat_logs (fst (run json_dumps t w)) = Some (content_of w ++ entry ++ newline) /\
    readlines (content_of w ++ entry ++ newline)
      = (readlines (content_of w) ++ [(entry ++ newline)%string])%list /\
    page (fst (run json_dumps t w))
      = (before
         ++ StSubheader "Recent Logs"
         :: map (fun log => StText (strip log)) (last_n 4 (readlines (content_of w)))
         ++ [StText (strip entry)])%list.
Proof.
  intros Hsubmit Hinput Hfile Hnow Huuid Huser Hrender Hfree.
  destruct (run_handled json_dumps t w) as (w' & messages' & Hhandled & _ & Hrun).
  rewrite Hrun. cbn [fst chat_logs page].
  assert (Hlogged :
    exists entry,
      chat_logs w' = Some (content_of w ++ entry ++ newline) /\
      create_log_entry json_dumps logger (turn_env t)
        (turn_log_data t (logged_response t)
           (match chat t with Return _ => VInt (duration_ms t) | Raise _ => VInt 0 end))
      = Return entry).
  { unfold logged_response.
    destruct Hhandled as [Hidle | response entry _ _ Hchat Hentry | e entry _ _ Hchat Hentry];
      [destruct Hidle; congruence | |];
      rewrite Hchat; exists entry; (split; [reflexivity | exact Hentry]). }
  destruct Hlogged as (entry & Hlogs & Hentry).
  assert (Hentry_free : no_line_end entry = true).
  { apply (entry_no_line_end _ _ _ Hentry Hnow Huuid).
    repeat constructor; cbn [snd].
    - exists (user_input t). now split.
    - exists r. now split.
    - eexists. split; reflexivity.
    - destruct (chat t); eexists; (split; [reflexivity | apply no_line_end_format_d]). }
  pose proof (readlines_appended (content_of w) entry Hfile Hentry_free) as Hread.
  exists entry. eexists (page w' ++ StSubheader "Chat History" :: map _ messages')%list.
  split; [exact Hlogs|]. split; [exact Hread|].
  rewrite Hlogs. unfold recent_logs_of.
  rewrite Hread, last_n_snoc, map_app. cbn [map]. rewrite strip_newline.
  now rewrite <- app_assoc.
Qed.

End EntryLines.

Section EntryLineBreak.

Variable json_dumps : PyValue -> PyResult string.
Variable self : LogFormatter.
Variable c : ascii.
Hypothesis pad_single : padding_char self = String c "".

(** X18: an entry is not always one line: a text value that holds a line
    feed and fits the width of its name makes the entry, once written with
    its line end, at least two lines of the file. *)
Theorem create_log_entry_line_break
    (env : Env) (log_data : dict PyValue) (key a b : string) :
  In (key, VStr (a ++ String LF b)) log_data ->
  len (a ++ String LF b) <= dict_get field_widths key (max_field_length self) ->
  exists entry,
    create_log_entry json_dumps self env log_data = Return entry /\
    (2 <= List.length (readlines (entry ++ newline)))%nat.
Proof.
  intros Hin Hfit.
  destruct (entry_contains_text json_dumps self c pad_single env log_data key _ Hin Hfit)
    as (entry & before & after & Hentry & ->).
  eexists. split; [exact Hentry|].
  replace ((before ++ (a ++ String LF b) ++ after) ++ newline)
    with (((before ++ a) ++ newline) ++ ((b ++ after) ++ newline))
    by (unfold newline; rewrite !append_assoc; reflexivity).
  rewrite readlines_after_newline, length_app.
  assert (Hne : forall s, (1 <= List.length (readlines (s ++ newline)))%nat).
  { intro s.
    destruct (readlines (s ++ newline)) as [|l ls] eqn:E; [|simpl; lia].
    exfalso. destruct s; simpl in E; [discriminate|].
    revert E. apply readlines_nonempty. }
  pose proof (Hne (before ++ a)). pose proof (Hne (b ++ after)). lia.
Qed.

End EntryLineBreak.

(** ** The properties of the script on the sample turns *)

Example run_failed_turn_log :
  chat_logs (fst (run json_dumps_refusing failed_turn fresh_world))
  = Some ("2024-01-01 10:00:00  | 1b4e28ba   | "
          ++ padded " " 50 "hi" ++ " | "
          ++ padded " " 80 "Error: connection refused" ++ " | "
          ++ "deepseek:1.5b   | 0         " ++ newline).
Proof. vm_compute. reflexivity. Qed.

Example run_answered_turn_messages :
  session_messages (fst (run json_dumps_refusing answered_turn fresh_world))
  = Some [mkMessage "user" (VStr "hi"); mkMessage "assistant" (VStr "hello")].
Proof. vm_compute. reflexivity. Qed.

Lemma run_idle_witness :
  session_messages (fst (run json_dumps_refusing idle_turn fresh_world))
    = Some (messages_of fresh_world) /\
  chat_logs (fst (run json_dumps_refusing idle_turn fresh_world)) = chat_logs fresh_world.
Proof.
  apply (run_idle json_dumps_refusing idle_turn fresh_world).
  left. reflexivity.
Defined.

Lemma run_answer_witness :
  exists entry,
    create_log_entry json_dumps_refusing logger (turn_env answered_turn)
      [ ("user_input", VStr (user_input answered_turn));
        ("response", assistant_response_of
           [("model", []);
            ("message", [("role", VStr "assistant"); ("content", VStr "hello")])]);
        ("model", VStr "deepseek:1.5b");
        ("duration_ms", VInt (duration_ms answered_turn)) ] = Return entry /\
    session_messages (fst (run json_dumps_refusing answered_turn fresh_world))
      = Some (messages_of fresh_world
              ++ [mkMessage "user" (VStr (user_input answered_turn));
                  mkMessage "assistant"
                    (assistant_response_of
                       [("model", []);
                        ("message",
                         [("role", VStr "assistant"); ("content", VStr "hello")])])])%list /\
    chat_logs (fst (run json_dumps_refusing answered_turn fresh_world))
      = Some (content_of fresh_world ++ entry ++ newline) /\
    (forall text,
       ~ In (StError text) (page (fst (run json_dumps_refusing answered_turn fresh_world)))) /\
    (~ In "message"
         (map fst
            [("model", @nil (string * PyValue));
             ("message", [("role", VStr "assistant"); ("content", VStr "hello")])]) ->
     assistant_response_of
       [("model", []);
        ("message", [("role", VStr "assistant"); ("content", VStr "hello")])]
     = VStr "No response received") /\
    (forall message,
       dict_get
         [("model", []);
          ("message", [("role", VStr "assistant"); ("content", VStr "hello")])]
         "message" [] = message ->
       ~ In "content" (map fst message) ->
       assistant_response_of
         [("model", []);
          ("message", [("role", VStr "assistant"); ("content", VStr "hello")])]
       = VStr "No response received").
Proof.
  apply (run_answer json_dumps_refusing answered_turn fresh_world
           [("model", []);
            ("message", [("role", VStr "assistant"); ("content", VStr "hello")])]).
  - reflexivity.
  - discriminate.
  - reflexivity.
Defined.

Lemma run_error_witness :
  exists entry,
    create_log_entry json_dumps_refusing logger (turn_env failed_turn)
      [ ("user_input", VStr (user_input failed_turn));
        ("response",
         VStr ("Error: " ++ exc_str (mkExc "ConnectionError" "connection refused")));
        ("model", VStr "deepseek:1.5b");
        ("duration_ms", VInt 0) ] = Return entry /\
    session_messages (fst (run json_dumps_refusing failed_turn fresh_world))
      = Some (messages_of fresh_world
              ++ [mkMessage "user" (VStr (user_input failed_turn))])%list /\
    chat_logs (fst (run json_dumps_refusing failed_turn fresh_world))
      = Some (content_of fresh_world ++ entry ++ newline) /\
    In (StError ("Error: " ++ exc_str (mkExc "ConnectionError" "connection refused")))
       (page (fst (run json_dumps_refusing failed_turn fresh_world))).
Proof.
  apply (run_error json_dumps_refusing failed_turn fresh_world
           (mkExc "ConnectionError" "connection refused")).
  - reflexivity.
  - discriminate.
  - reflexivity.
Defined.

Lemma run_record_width_witness :
  exists entry,
    chat_logs (fst (run json_dumps_refusing answered_turn fresh_world))
      = Some (content_of fresh_world ++ entry ++ newline) /\
    len entry = 200.
Proof.
  apply (run_record_width json_dumps_refusing answered_turn fresh_world).
  - reflexivity.
  - discriminate.
  - intros response [= <-]. eexists. reflexivity.
Defined.

Lemma run_shows_new_entry_witness :
  exists entry before,
    chat_logs (fst (run json_dumps_refusing failed_turn fresh_world))
      = Some (content_of fresh_world ++ entry ++ newline) /\
    readlines (content_of fresh_world ++ entry ++ newline)
      = (readlines (content_of fresh_world) ++ [(entry ++ newline)%string])%list /\
    page (fst (run json_dumps_refusing failed_turn fresh_world))
      = (before
         ++ StSubheader "Recent Logs"
         :: map (fun log => StText (strip log))
              (last_n 4 (readlines (content_of fresh_world)))
         ++ [StText (strip entry)])%list.
Proof.
  apply (run_shows_new_entry json_dumps_refusing failed_turn fresh_world
           "Error: connection refused").
  - reflexivity.
  - discriminate.
  - left. reflexivity.
  - reflexivity.
  - reflexivity.
  - reflexivity.
  - reflexivity.
  - reflexivity.
Defined.

Lemma create_log_entry_line_break_witness :
  exists entry,
    create_log_entry json_dumps_refusing logger sample_env
      [("user_input", VStr ("a" ++ String LF "b"))] = Return entry /\
    (2 <= List.length (readlines (entry ++ newline)))%nat.
Proof.
  apply (create_log_entry_line_break json_dumps_refusing logger " "%char eq_refl
           sample_env [("user_input", VStr ("a" ++ String LF "b"))] "user_input" "a" "b").
  - left. reflexivity.
  - vm_compute. discriminate.
Defined.
